(** * go-confero: light client glue, mobile node wrapper and Trezor messages

    A shallow embedding of
    - the light client service (package [les]: [New], [Start], [Stop],
      [VfluxRequest], [vfxVersion], [prenegQuery]),
    - the mobile node constructor (package [gcofe]: [NewNode]),
    - the generated getters of the Trezor protobuf messages (package [trezor]),
    together with the properties the specification states about them. *)

From Stdlib Require Import ZArith NArith List String Bool Lia.
Import ListNotations.

Set Implicit Arguments.

(** * A fragment of the Go runtime

    Go pointers may be nil, slices may be nil, and dereferencing a nil
    pointer or indexing past the end of a slice panics.  Computations that
    can panic live in [run]. *)
Module Go.

Inductive fault := NilDereference | IndexOutOfRange.

Inductive run (A : Type) : Type :=
  | Done (a : A)
  | Panic (why : fault).
Arguments Done {A} a.
Arguments Panic {A} why.

Definition ret {A} (a : A) : run A := Done a.

Definition bind {A B} (c : run A) (k : A -> run B) : run B :=
  match c with
  | Done a => k a
  | Panic w => Panic w
  end.

Definition returns {A} (c : run A) : Prop := exists a, c = Done a.

(** A pointer is either nil or the address of a value; only the value
    matters here. *)
Definition ptr (A : Type) := option A.
Definition nil {A} : ptr A := None.
Definition addr {A} (a : A) : ptr A := Some a.

Definition not_nil {A} (p : ptr A) : bool :=
  match p with Some _ => true | None => false end.

Definition deref {A} (p : ptr A) : run A :=
  match p with
  | Some a => Done a
  | None => Panic NilDereference
  end.

(** [b && e]: the right operand is evaluated only when [b] holds. *)
Definition and_then (b : bool) (e : run bool) : run bool :=
  if b then e else Done false.

(** [b || e]: the right operand is evaluated only when [b] fails. *)
Definition or_else (b : bool) (e : run bool) : run bool :=
  if b then Done true else e.

(** A slice is nil or a sequence of elements; [len] of a nil slice is 0. *)
Definition slice (A : Type) := option (list A).
Definition nil_slice {A} : slice A := None.

Definition elems {A} (s : slice A) : list A :=
  match s with Some l => l | None => [] end.

Definition len {A} (s : slice A) : nat := List.length (elems s).

Definition index {A} (s : slice A) (i : nat) : run A :=
  match nth_error (elems s) i with
  | Some a => Done a
  | None => Panic IndexOutOfRange
  end.

Definition uint64_of_int64 (x : Z) : Z := (x mod 2 ^ 64)%Z.

End Go.

Import Go.

Declare Scope go_scope.
Delimit Scope go_scope with go.
Notation "x <- c ;; k" := (bind c (fun x => k))
  (at level 61, c at next level, right associativity) : go_scope.
Notation "b &&& e" := (and_then b e) (at level 40, left associativity) : go_scope.
Notation "b ||| e" := (or_else b e) (at level 50, left associativity) : go_scope.
Open Scope go_scope.

(** * Package trezor: messages-confero.pb.go

    One module per message type.  Optional scalar fields are pointers,
    repeated and bytes fields are slices.  Every getter takes the receiver
    pointer and is written with the guards of the generated code. *)
Module Trezor.

Definition byte := Byte.byte.
Definition uint32 := N.

Module ConferoGetPublicKey.
Record t := mk {
  AddressN : slice uint32;
  ShowDisplay : ptr bool
}.

Definition GetAddressN (m : ptr t) : run (slice uint32) :=
  if not_nil m then r <- deref m ;; ret (AddressN r) else ret nil_slice.

Definition GetShowDisplay (m : ptr t) : run bool :=
  c <- not_nil m &&& (r <- deref m ;; ret (not_nil (ShowDisplay r))) ;;
  if c then r <- deref m ;; deref (ShowDisplay r) else ret false.
End ConferoGetPublicKey.

Module ConferoPublicKey.
(** [HDNodeType] is declared with the common messages; the getter only
    passes the pointer on. *)
Record t (HDNodeType : Type) := mk {
  Node : ptr HDNodeType;
  Xpub : ptr string
}.

Definition GetNode {H} (m : ptr (t H)) : run (ptr H) :=
  if not_nil m then r <- deref m ;; ret (Node r) else ret nil.

Definition GetXpub {H} (m : ptr (t H)) : run string :=
  c <- not_nil m &&& (r <- deref m ;; ret (not_nil (Xpub r))) ;;
  if c then r <- deref m ;; deref (Xpub r) else ret EmptyString.
End ConferoPublicKey.

Module ConferoGetAddress.
Record t := mk {
  AddressN : slice uint32;
  ShowDisplay : ptr bool
}.

Definition GetAddressN (m : ptr t) : run (slice uint32) :=
  if not_nil m then r <- deref m ;; ret (AddressN r) else ret nil_slice.

Definition GetShowDisplay (m : ptr t) : run bool :=
  c <- not_nil m &&& (r <- deref m ;; ret (not_nil (ShowDisplay r))) ;;
  if c then r <- deref m ;; deref (ShowDisplay r) else ret false.
End ConferoGetAddress.

Module ConferoAddress.
Record t := mk {
  AddressBin : slice byte;
  AddressHex : ptr string
}.

Definition GetAddressBin (m : ptr t) : run (slice byte) :=
  if not_nil m then r <- deref m ;; ret (AddressBin r) else ret nil_slice.

Definition GetAddressHex (m : ptr t) : run string :=
  c <- not_nil m &&& (r <- deref m ;; ret (not_nil (AddressHex r))) ;;
  if c then r <- deref m ;; deref (AddressHex r) else ret EmptyString.
End ConferoAddress.

Module ConferoSignTx.
Record t := mk {
  AddressN : slice uint32;
  Nonce : slice byte;
  GasPrice : slice byte;
  GasLimit : slice byte;
  ToBin : slice byte;
  ToHex : ptr string;
  Value : slice byte;
  DataInitialChunk : slice byte;
  DataLength : ptr uint32;
  ChainId : ptr uint32;
  TxType : ptr uint32
}.

Definition GetAddressN (m : ptr t) : run (slice uint32) :=
  if not_nil m then r <- deref m ;; ret (AddressN r) else ret nil_slice.

Definition GetNonce (m : ptr t) : run (slice byte) :=
  if not_nil m then r <- deref m ;; ret (Nonce r) else ret nil_slice.

Definition GetGasPrice (m : ptr t) : run (slice byte) :=
  if not_nil m then r <- deref m ;; ret (GasPrice r) else ret nil_slice.

Definition GetGasLimit (m : ptr t) : run (slice byte) :=
  if not_nil m then r <- deref m ;; ret (GasLimit r) else ret nil_slice.

Definition GetToBin (m : ptr t) : run (slice byte) :=
  if not_nil m then r <- deref m ;; ret (ToBin r) else ret nil_slice.

Definition GetToHex (m : ptr t) : run string :=
  c <- not_nil m &&& (r <- deref m ;; ret (not_nil (ToHex r))) ;;
  if c then r <- deref m ;; deref (ToHex r) else ret EmptyString.

Definition GetValue (m : ptr t) : run (slice byte) :=
  if not_nil m then r <- deref m ;; ret (Value r) else ret nil_slice.

Definition GetDataInitialChunk (m : ptr t) : run (slice byte) :=
  if not_nil m then r <- deref m ;; ret (DataInitialChunk r) else ret nil_slice.

Definition GetDataLength (m : ptr t) : run uint32 :=
  c <- not_nil m &&& (r <- deref m ;; ret (not_nil (DataLength r))) ;;
  if c then r <- deref m ;; deref (DataLength r) else ret 0%N.

Definition GetChainId (m : ptr t) : run uint32 :=
  c <- not_nil m &&& (r <- deref m ;; ret (not_nil (ChainId r))) ;;
  if c then r <- deref m ;; deref (ChainId r) else ret 0%N.

Definition GetTxType (m : ptr t) : run uint32 :=
  c <- not_nil m &&& (r <- deref m ;; ret (not_nil (TxType r))) ;;
  if c then r <- deref m ;; deref (TxType r) else ret 0%N.
End ConferoSignTx.

Module ConferoTxRequest.
Record t := mk {
  DataLength : ptr uint32;
  SignatureV : ptr uint32;
  SignatureR : slice byte;
  SignatureS : slice byte
}.

Definition GetDataLength (m : ptr t) : run uint32 :=
  c <- not_nil m &&& (r <- deref m ;; ret (not_nil (DataLength r))) ;;
  if c then r <- deref m ;; deref (DataLength r) else ret 0%N.

Definition GetSignatureV (m : ptr t) : run uint32 :=
  c <- not_nil m &&& (r <- deref m ;; ret (not_nil (SignatureV r))) ;;
  if c then r <- deref m ;; deref (SignatureV r) else ret 0%N.

Definition GetSignatureR (m : ptr t) : run (slice byte) :=
  if not_nil m then r <- deref m ;; ret (SignatureR r) else ret nil_slice.

Definition GetSignatureS (m : ptr t) : run (slice byte) :=
  if not_nil m then r <- deref m ;; ret (SignatureS r) else ret nil_slice.
End ConferoTxRequest.

Module ConferoTxAck.
Record t := mk {
  DataChunk : slice byte
}.

Definition GetDataChunk (m : ptr t) : run (slice byte) :=
  if not_nil m then r <- deref m ;; ret (DataChunk r) else ret nil_slice.
End ConferoTxAck.

Module ConferoSignMessage.
Record t := mk {
  AddressN : slice uint32;
  Message : slice byte
}.

Definition GetAddressN (m : ptr t) : run (slice uint32) :=
  if not_nil m then r <- deref m ;; ret (AddressN r) else ret nil_slice.

Definition GetMessage (m : ptr t) : run (slice byte) :=
  if not_nil m then r <- deref m ;; ret (Message r) else ret nil_slice.
End ConferoSignMessage.

Module ConferoMessageSignature.
Record t := mk {
  AddressBin : slice byte;
  Signature : slice byte;
  AddressHex : ptr string
}.

Definition GetAddressBin (m : ptr t) : run (slice byte) :=
  if not_nil m then r <- deref m ;; ret (AddressBin r) else ret nil_slice.

Definition GetSignature (m : ptr t) : run (slice byte) :=
  if not_nil m then r <- deref m ;; ret (Signature r) else ret nil_slice.

Definition GetAddressHex (m : ptr t) : run string :=
  c <- not_nil m &&& (r <- deref m ;; ret (not_nil (AddressHex r))) ;;
  if c then r <- deref m ;; deref (AddressHex r) else ret EmptyString.
End ConferoMessageSignature.

Module ConferoVerifyMessage.
Record t := mk {
  AddressBin : slice byte;
  Signature : slice byte;
  Message : slice byte;
  AddressHex : ptr string
}.

Definition GetAddressBin (m : ptr t) : run (slice byte) :=
  if not_nil m then r <- deref m ;; ret (AddressBin r) else ret nil_slice.

Definition GetSignature (m : ptr t) : run (slice byte) :=
  if not_nil m then r <- deref m ;; ret (Signature r) else ret nil_slice.

Definition GetMessage (m : ptr t) : run (slice byte) :=
  if not_nil m then r <- deref m ;; ret (Message r) else ret nil_slice.

Definition GetAddressHex (m : ptr t) : run string :=
  c <- not_nil m &&& (r <- deref m ;; ret (not_nil (AddressHex r))) ;;
  if c then r <- deref m ;; deref (AddressHex r) else ret EmptyString.
End ConferoVerifyMessage.

(** A getter packed with what the wire contract says about it: the zero
    value of its result type and the field it reads. *)
Record getter := Getter {
  recv : Type;
  res : Type;
  get : ptr recv -> run res;
  zero : res;
  unset : recv -> bool
}.

Definition slice_unset {A} (s : slice A) : bool := negb (not_nil s).
Definition opt_unset {A} (p : ptr A) : bool := negb (not_nil p).

Section Getters.
Variable HDNodeType : Type.

Definition generated_getters : list getter :=
  [ Getter ConferoGetPublicKey.GetAddressN nil_slice
      (fun r => slice_unset (ConferoGetPublicKey.AddressN r));
    Getter ConferoGetPublicKey.GetShowDisplay false
      (fun r => opt_unset (ConferoGetPublicKey.ShowDisplay r));
    Getter (@ConferoPublicKey.GetNode HDNodeType) nil
      (fun r => opt_unset (ConferoPublicKey.Node r));
    Getter (@ConferoPublicKey.GetXpub HDNodeType) EmptyString
      (fun r => opt_unset (ConferoPublicKey.Xpub r));
    Getter ConferoGetAddress.GetAddressN nil_slice
      (fun r => slice_unset (ConferoGetAddress.AddressN r));
    Getter ConferoGetAddress.GetShowDisplay false
      (fun r => opt_unset (ConferoGetAddress.ShowDisplay r));
    Getter ConferoAddress.GetAddressBin nil_slice
      (fun r => slice_unset (ConferoAddress.AddressBin r));
    Getter ConferoAddress.GetAddressHex EmptyString
      (fun r => opt_unset (ConferoAddress.AddressHex r));
    Getter ConferoSignTx.GetAddressN nil_slice
      (fun r => slice_unset (ConferoSignTx.AddressN r));
    Getter ConferoSignTx.GetNonce nil_slice
      (fun r => slice_unset (ConferoSignTx.Nonce r));
    Getter ConferoSignTx.GetGasPrice nil_slice
      (fun r => slice_unset (ConferoSignTx.GasPrice r));
    Getter ConferoSignTx.GetGasLimit nil_slice
      (fun r => slice_unset (ConferoSignTx.GasLimit r));
    Getter ConferoSignTx.GetToBin nil_slice
      (fun r => slice_unset (ConferoSignTx.ToBin r));
    Getter ConferoSignTx.GetToHex EmptyString
      (fun r => opt_unset (ConferoSignTx.ToHex r));
    Getter ConferoSignTx.GetValue nil_slice
      (fun r => slice_unset (ConferoSignTx.Value r));
    Getter ConferoSignTx.GetDataInitialChunk nil_slice
      (fun r => slice_unset (ConferoSignTx.DataInitialChunk r));
    Getter ConferoSignTx.GetDataLength 0%N
      (fun r => opt_unset (ConferoSignTx.DataLength r));
    Getter ConferoSignTx.GetChainId 0%N
      (fun r => opt_unset (ConferoSignTx.ChainId r));
    Getter ConferoSignTx.GetTxType 0%N
      (fun r => opt_unset (ConferoSignTx.TxType r));
    Getter ConferoTxRequest.GetDataLength 0%N
      (fun r => opt_unset (ConferoTxRequest.DataLength r));
    Getter ConferoTxRequest.GetSignatureV 0%N
      (fun r => opt_unset (ConferoTxRequest.SignatureV r));
    Getter ConferoTxRequest.GetSignatureR nil_slice
      (fun r => slice_unset (ConferoTxRequest.SignatureR r));
    Getter ConferoTxRequest.GetSignatureS nil_slice
      (fun r => slice_unset (ConferoTxRequest.SignatureS r));
    Getter ConferoTxAck.GetDataChunk nil_slice
      (fun r => slice_unset (ConferoTxAck.DataChunk r));
    Getter ConferoSignMessage.GetAddressN nil_slice
      (fun r => slice_unset (ConferoSignMessage.AddressN r));
    Getter ConferoSignMessage.GetMessage nil_slice
      (fun r => slice_unset (ConferoSignMessage.Message r));
    Getter ConferoMessageSignature.GetAddressBin nil_slice
      (fun r => slice_unset (ConferoMessageSignature.AddressBin r));
    Getter ConferoMessageSignature.GetSignature nil_slice
      (fun r => slice_unset (ConferoMessageSignature.Signature r));
    Getter ConferoMessageSignature.GetAddressHex EmptyString
      (fun r => opt_unset (ConferoMessageSignature.AddressHex r));
    Getter ConferoVerifyMessage.GetAddressBin nil_slice
      (fun r => slice_unset (ConferoVerifyMessage.AddressBin r));
    Getter ConferoVerifyMessage.GetSignature nil_slice
      (fun r => slice_unset (ConferoVerifyMessage.Signature r));
    Getter ConferoVerifyMessage.GetMessage nil_slice
      (fun r => slice_unset (ConferoVerifyMessage.Message r));
    Getter ConferoVerifyMessage.GetAddressHex EmptyString
      (fun r => opt_unset (ConferoVerifyMessage.AddressHex r)) ].
End Getters.

(** What the wire contract asks of a getter: no panic on any receiver,
    the zero value on a nil receiver and on an unset field. *)
Definition nil_safe (g : getter) : Prop :=
  (forall m, returns (get g m)) /\
  get g nil = Done (zero g) /\
  (forall r, unset g r = true -> get g (addr r) = Done (zero g)).

End Trezor.

(** * Package les: client.go *)
Module Les.

Definition byte := Byte.byte.
Definition uint := N.
Definition uint64 := N.

(** ** Collaborators the negotiation path calls into *)

(** [rlp.RawValue]: one encoded value, kept undecoded. *)
Definition RawValue := list byte.

(** What [n.Load(enr.WithEntry("les", &les))] finds in a record: no such
    key, a value that is not a list of raw values, or the list. *)
Inductive lesEntry :=
  | Absent
  | Undecodable
  | Listed (vals : list RawValue).

Record Node := mkNode {
  ID : N;
  Seq : uint64;
  les : lesEntry
}.

(** [n.Load(enr.WithEntry("les", &les))]: the loaded slice and whether
    the error is non-nil. *)
Definition Load_les (n : Node) : slice RawValue * bool :=
  match les n with
  | Listed vals => (Some vals, false)
  | Absent | Undecodable => (nil_slice, true)
  end.

(** [discover.UDPv5]: both calls go over the network, so their results
    are given by the peer and the network; the flag is [err != nil]. *)
Record UDPv5 := mkUDPv5 {
  RequestENR : Node -> ptr Node * bool;
  TalkRequest : Node -> string -> list byte -> slice byte * bool
}.

Record Server := mkServer {
  DiscV5 : ptr UDPv5
}.

Record ServerPool := mkServerPool {
  DialNode : Node -> Node;
  persisted : list Node
}.

(** [serverPool.Persist(n)] (package vflux/client): the pool keeps the
    record. *)
Definition Persist (p : ServerPool) (n : Node) : ServerPool :=
  {| DialNode := DialNode p; persisted := n :: persisted p |}.

(** ** Package vflux: request and reply batches

    The package is not among the sources; requests and replies are given
    the shape [client.go] uses them with: a named query with encoded
    parameters, and one encoded reply per request. *)

Record IntOrInf := mkIntOrInf { Type_ : N; Value : Z }.

Record CapacityQueryReq := mkCapacityQueryReq {
  Bias : uint64;
  AddTokens : list IntOrInf
}.

Record Request := mkRequest {
  Service : string;
  Name : string;
  Params : list byte
}.

Definition Requests := list Request.
Definition Replies := slice (list byte).

(** Modelled from the spec: [vflux.CapacityQueryReply] is declared in
    package les/vflux, which is not among the sources.  A candidate
    answers with the capacity it has free for the caller: a list of
    amounts, none negative (RLP carries unsigned integers only), hence a
    slice of [N]. *)
Definition CapacityQueryReply := slice uint64.

(** The [rlp] encoders and decoders the client uses, one per Go type it
    passes; a decoder gives [None] where [rlp.DecodeBytes] returns an
    error. *)
Record Codec := mkCodec {
  EncodeRequests : Requests -> list byte;
  EncodeCapacityQueryReq : CapacityQueryReq -> list byte;
  DecodeReplies : list byte -> option (list (list byte));
  DecodeUint : RawValue -> option uint;
  DecodeCapacityQueryReply : list byte -> option (list uint64)
}.

(** The part of [LightConfero] the negotiation path reads and writes. *)
Record LightConfero := mkLightConfero {
  udpEnabled : bool;
  p2pServer : Server;
  serverPool : ServerPool
}.

Definition with_serverPool (s : LightConfero) (p : ServerPool) : LightConfero :=
  {| udpEnabled := udpEnabled s; p2pServer := p2pServer s; serverPool := p |}.

Definition with_udpEnabled (s : LightConfero) (b : bool) : LightConfero :=
  {| udpEnabled := b; p2pServer := p2pServer s; serverPool := serverPool s |}.

Section Negotiation.
Variable rlp : Codec.
(** [vflux.CapacityQueryName] *)
Variable CapacityQueryName : string.

(** Modelled from the spec: [Requests.Add] is declared in package
    les/vflux.  [requests.Add(service, name, val)] appends the named
    query with its parameters encoded. *)
Definition Add (r : Requests) (service name : string) (val : CapacityQueryReq)
  : Requests :=
  r ++ [ {| Service := service; Name := name;
            Params := EncodeCapacityQueryReq rlp val |} ].

(** Modelled from the spec: [Replies.Get] is declared in package
    les/vflux, which is not among the sources.  [replies.Get(i, &cqr)]
    is an error when the batch has no i-th reply - in particular when
    [replies] is nil, as [prenegQuery] notes at the call - and else the
    decoding of that reply.  Gives the decoded value and whether the
    error is non-nil. *)
Definition Get (r : Replies) (i : nat) : CapacityQueryReply * bool :=
  match nth_error (elems r) i with
  | None => (nil_slice, true)
  | Some enc =>
      match DecodeCapacityQueryReply rlp enc with
      | Some l => (Some l, false)
      | None => (nil_slice, true)
      end
  end.

Definition VfluxRequest (s : LightConfero) (n : Node) (reqs : Requests)
  : run Replies :=
  if negb (udpEnabled s) then ret nil_slice else
  let reqsEnc := EncodeRequests rlp reqs in
  d <- deref (DiscV5 (p2pServer s)) ;;
  let repliesEnc := fst (TalkRequest d (DialNode (serverPool s) n) "vfx" reqsEnc) in
  if (len repliesEnc =? 0)%nat then ret nil_slice else
  match DecodeReplies rlp (elems repliesEnc) with
  | None => ret nil_slice
  | Some replies => ret (Some replies)
  end.

(** The first block of [vfxVersion]: a record without sequence number
    is fetched again.  [inl v] is an early [return v]; [inr] carries
    the record to read and the updated client. *)
Definition refresh (s : LightConfero) (n : Node)
  : run (uint + Node * LightConfero) :=
  if (Seq n =? 0)%N then
    if negb (udpEnabled s) then ret (inl 0%N) else
    d <- deref (DiscV5 (p2pServer s)) ;;
    let (n', err) := RequestENR d n in
    c <- not_nil n' &&& (negb err &&& (m <- deref n' ;; ret (negb (Seq m =? 0)%N))) ;;
    if c then
      m <- deref n' ;;
      ret (inr (m, with_serverPool s (Persist (serverPool s) m)))
    else ret (inl 0%N)
  else ret (inr (n, s)).

Definition vfxVersion (s : LightConfero) (n : Node) : run (uint * LightConfero) :=
  r <- refresh s n ;;
  match r with
  | inl v => ret (v, s)
  | inr (n, s) =>
      let (les, err) := Load_les n in
      if err || (len les <? 1)%nat then ret (0%N, s) else
      raw <- index les 0 ;;
      (* the decoding error is dropped; [version] keeps its zero value
         when nothing was decoded *)
      let version := match DecodeUint rlp raw with Some v => v | None => 0%N end in
      ret (version, s)
  end.

Definition prenegQuery (s : LightConfero) (n : Node) : run (Z * LightConfero) :=
  r <- vfxVersion s n ;;
  let (version, s) := r in
  if (version <? 1)%N then ret (1%Z, s) else
  let requests :=
    Add [] "les" CapacityQueryName
      {| Bias := 180%N; AddTokens := [ {| Type_ := 0%N; Value := 0%Z |} ] |} in
  replies <- VfluxRequest s n requests ;;
  let (cqr, err) := Get replies 0 in
  if err || negb (len cqr =? 1)%nat then ret ((-1)%Z, s) else
  c <- index cqr 0 ;;
  if (0 <? c)%N then ret (1%Z, s) else ret (0%Z, s).

End Negotiation.

(** [Start], as far as it touches the fields above: discovery v5 that is
    not initialised switches the UDP path off. *)
Definition Start (s : LightConfero) : LightConfero :=
  if udpEnabled s && negb (not_nil (DiscV5 (p2pServer s)))
  then with_udpEnabled s false
  else s.

(** ** Lifecycle: [New] and [Stop]

    Both are sequences of calls into the subsystems held by the fields of
    [LightConfero]; they are embedded as the sequence of calls they make,
    in program order, together with what they return. *)

(** The fields of [LightConfero] and [lesCommons] that hold a subsystem. *)
Module part.
Inductive t :=
  | chainDb | lesDb | peers | merger | reqDist | engine | bloomIndexer
  | shutdownTracker | serverPool | retriever | relay | odr | chtIndexer
  | bloomTrieIndexer | blockchain | txPool | oracle | pruner | ApiBackend
  | gpo | handler | netRPCService | eventMux.

Definition eqb (a b : t) : bool :=
  match a, b with
  | chainDb, chainDb | lesDb, lesDb | peers, peers | merger, merger
  | reqDist, reqDist | engine, engine | bloomIndexer, bloomIndexer
  | shutdownTracker, shutdownTracker | serverPool, serverPool
  | retriever, retriever | relay, relay | odr, odr
  | chtIndexer, chtIndexer | bloomTrieIndexer, bloomTrieIndexer
  | blockchain, blockchain | txPool, txPool | oracle, oracle
  | pruner, pruner | ApiBackend, ApiBackend | gpo, gpo
  | handler, handler | netRPCService, netRPCService
  | eventMux, eventMux => true
  | _, _ => false
  end.
End part.

Inductive level := Info | Warn.

Inductive call :=
  | OpenDatabase (name : string)
  | SetupGenesisBlockWithOverride
  | Log (lvl : level) (msg : string)
  (* the constructor call whose result is stored in the field *)
  | Make (p : part.t)
  (* [vfc.NewServerPool]; the flag tells whether a query function is passed *)
  | NewServerPool (query : bool)
  | AddMetrics
  | SetIndexers
  | AddChildIndexer (parent child : part.t)
  | StartIndexer (p : part.t)
  | SetHead
  | WriteChainConfig
  | DisableCheckFreq
  | RegisterAPIs
  | RegisterProtocols
  | RegisterLifecycle
  | MarkStartup
  | CloseCloseCh
  (* the [Stop], [Close], [close] or [stop] method of the field *)
  | Halt (p : part.t)
  | WgWait.

Inductive genesisError := NoError | ConfigCompatError | OtherError.

Inductive error :=
  | ErrOpenDatabase (name : string)
  | ErrGenesis
  | ErrNewLightChain.

(** What [New] gets from the node stack, the configuration and the calls
    that can fail. *)
Record Startup := mkStartup {
  chainDbErr : bool;
  lesDbErr : bool;
  genesisErr : genesisError;
  chainConfigLines : list string;
  lightChainErr : bool;
  ulc : bool;
  stackServer : Server;
  DiscoveryV5 : bool;
  newPool : ServerPool
}.

Fixpoint Repeat (c : string) (count : nat) : string :=
  match count with
  | O => EmptyString
  | S k => (c ++ Repeat c k)%string
  end.

Definition New (w : Startup) : list call * (LightConfero + error) :=
  let t := [OpenDatabase "lightchaindata"] in
  if chainDbErr w then (t, inr (ErrOpenDatabase "lightchaindata")) else
  let t := t ++ [OpenDatabase "les.client"] in
  if lesDbErr w then (t, inr (ErrOpenDatabase "les.client")) else
  let t := t ++ [SetupGenesisBlockWithOverride] in
  match genesisErr w with
  | OtherError => (t, inr ErrGenesis)
  | _ =>
  let t := t ++ [Log Info ""; Log Info (Repeat "-" 153)]
             ++ map (Log Info) (chainConfigLines w)
             ++ [Log Info (Repeat "-" 153); Log Info ""] in
  let t := t ++ [Make part.peers; Make part.merger; Make part.reqDist;
                 Make part.engine; Make part.bloomIndexer;
                 Make part.shutdownTracker] in
  let leth := {| udpEnabled := DiscoveryV5 w;
                 p2pServer := stackServer w;
                 serverPool := newPool w |} in
  let t := t ++ [NewServerPool (udpEnabled leth); AddMetrics;
                 Make part.retriever; Make part.relay; Make part.odr;
                 Make part.chtIndexer; Make part.bloomTrieIndexer;
                 SetIndexers; Make part.blockchain] in
  if lightChainErr w then (t, inr ErrNewLightChain) else
  let t := t ++ [Make part.txPool; Make part.oracle;
                 AddChildIndexer part.bloomIndexer part.bloomTrieIndexer;
                 StartIndexer part.chtIndexer;
                 StartIndexer part.bloomIndexer;
                 Make part.pruner] in
  let t := t ++ match genesisErr w with
                | ConfigCompatError =>
                    [Log Warn "Rewinding chain to upgrade configuration";
                     SetHead; WriteChainConfig]
                | _ => []
                end in
  let t := t ++ [Make part.ApiBackend; Make part.gpo; Make part.handler] in
  let t := t ++ (if ulc w
                 then [Log Warn "Ultra light client is enabled"; DisableCheckFreq]
                 else []) in
  let t := t ++ [Make part.netRPCService;
                 RegisterAPIs; RegisterProtocols; RegisterLifecycle] in
  let t := t ++ [MarkStartup] in
  (t, inl leth)
  end.

Definition Stop : list call :=
  [ CloseCloseCh;
    Halt part.serverPool;
    Halt part.peers;
    Halt part.reqDist;
    Halt part.odr;
    Halt part.relay;
    Halt part.bloomIndexer;
    Halt part.chtIndexer;
    Halt part.blockchain;
    Halt part.handler;
    Halt part.txPool;
    Halt part.engine;
    Halt part.pruner;
    Halt part.eventMux;
    Halt part.shutdownTracker;
    Halt part.chainDb;
    Halt part.lesDb;
    WgWait;
    Log Info "Light confero stopped" ].

(** ** Reading a sequence of calls *)

Definition is_halt (c : call) : bool :=
  match c with Halt _ => true | _ => false end.

Definition halts (p : part.t) (c : call) : bool :=
  match c with Halt q => part.eqb p q | _ => false end.

Definition is_storage (p : part.t) : bool :=
  match p with part.chainDb | part.lesDb => true | _ => false end.

(** Position of the first call satisfying [f]. *)
Fixpoint position (f : call -> bool) (t : list call) : option nat :=
  match t with
  | [] => None
  | c :: t' => if f c then Some O
               else match position f t' with
                    | Some k => Some (S k)
                    | None => None
                    end
  end.

(** [f] occurs, and strictly before the first [g]. *)
Definition before (f g : call -> bool) (t : list call) : Prop :=
  match position f t, position g t with
  | Some i, Some j => (i < j)%nat
  | _, _ => False
  end.

(** The parts halted by the calls of [t], in order. *)
Fixpoint halted (t : list call) : list part.t :=
  match t with
  | [] => []
  | Halt p :: t' => p :: halted t'
  | _ :: t' => halted t'
  end.

Definition is_mark (c : call) : bool :=
  match c with MarkStartup => true | _ => false end.

Definition is_add_child (parent child : part.t) (c : call) : bool :=
  match c with
  | AddChildIndexer p q => part.eqb parent p && part.eqb child q
  | _ => false
  end.

Definition is_start (p : part.t) (c : call) : bool :=
  match c with StartIndexer q => part.eqb p q | _ => false end.

(** A test on calls that no log call passes. *)
Definition skips_logs (f : call -> bool) : Prop :=
  forall lvl msg, f (Log lvl msg) = false.

(** Modelled from the spec: the shutdown tracker (package shutdowncheck)
    is not among the sources.  The marker is "written on startup and
    cleared on clean shutdown": [MarkStartup] leaves it present, the
    tracker's [Stop] leaves it absent, no other call touches it. *)
Fixpoint marker (present : bool) (t : list call) : bool :=
  match t with
  | [] => present
  | MarkStartup :: t' => marker true t'
  | Halt part.shutdownTracker :: t' => marker false t'
  | _ :: t' => marker present t'
  end.

End Les.

(** * Chain indexers driven by the client *)
Module Indexers.

Import Les.

(** Modelled from the spec: the chain indexer (core.ChainIndexer) is not
    among the sources.  An indexer processes sections in increasing order:
    it begins its next section once the headers of that section are known
    to it, and commits the section it has begun; committed sections stay
    committed, a reorganisation only restarts the section in progress.
    [known], [begun] and [committed] count sections from 0. *)
Record indexer := mkIndexer {
  known : nat;
  begun : nat;
  committed : nat
}.

Inductive who := Upstream | Downstream.

Record state := mkState {
  up : indexer;
  down : indexer
}.

(** How [New] wires the bloom-bits indexer (upstream) and the Bloom-Trie
    indexer (downstream): read off the calls it makes. *)
Record wiring := mkWiring {
  child_of_upstream : bool;
  upstream_started : bool;
  downstream_started : bool
}.

Definition wiring_of (t : list call) : wiring :=
  {| child_of_upstream :=
       existsb (is_add_child part.bloomIndexer part.bloomTrieIndexer) t;
     upstream_started := existsb (is_start part.bloomIndexer) t;
     downstream_started := existsb (is_start part.bloomTrieIndexer) t |}.

Inductive event :=
  (* the chain confirms the headers of the sections below [sections] *)
| Headers (sections : nat)
| Begin (i : who) (section : nat)
| Commit (i : who) (section : nat)
| Reorg (i : who).

Definition idle : indexer := {| known := 0; begun := 0; committed := 0 |}.
Definition init : state := {| up := idle; down := idle |}.

(** Modelled from the spec: an indexer learns of new sections only from
    the source it is attached to: the chain when it was started on it, the
    upstream's commits when it was added as its child. *)
Definition learn (attached : bool) (sections : nat) (i : indexer) : indexer :=
  if attached
  then {| known := Nat.max (known i) sections; begun := begun i;
          committed := committed i |}
  else i.

Definition can_begin (i : indexer) (n : nat) : bool :=
  (n =? committed i)%nat && (begun i =? committed i)%nat && (n <? known i)%nat.

Definition can_commit (i : indexer) (n : nat) : bool :=
  (n =? committed i)%nat && (begun i =? S (committed i))%nat.

Definition do_begin (i : indexer) : indexer :=
  {| known := known i; begun := S (begun i); committed := committed i |}.

Definition do_commit (i : indexer) : indexer :=
  {| known := known i; begun := begun i; committed := S (committed i) |}.

Definition do_reorg (i : indexer) : indexer :=
  {| known := known i; begun := committed i; committed := committed i |}.

(** Modelled from the spec: one step of the two indexers of section 4.7. *)
Definition step (w : wiring) (st : state) (e : event) : option state :=
  match e with
  | Headers k =>
      Some {| up := learn (upstream_started w) k (up st);
              down := learn (downstream_started w) k (down st) |}
  | Begin Upstream n =>
      if can_begin (up st) n
      then Some {| up := do_begin (up st); down := down st |} else None
  | Commit Upstream n =>
      if can_commit (up st) n
      then Some {| up := do_commit (up st);
                   down := learn (child_of_upstream w) (S n) (down st) |}
      else None
  | Begin Downstream n =>
      if can_begin (down st) n
      then Some {| up := up st; down := do_begin (down st) |} else None
  | Commit Downstream n =>
      if can_commit (down st) n
      then Some {| up := up st; down := do_commit (down st) |} else None
  | Reorg Upstream => Some {| up := do_reorg (up st); down := down st |}
  | Reorg Downstream => Some {| up := up st; down := do_reorg (down st) |}
  end.

Fixpoint exec (w : wiring) (st : state) (es : list event) : option state :=
  match es with
  | [] => Some st
  | e :: es' =>
      match step w st e with
      | Some st' => exec w st' es'
      | None => None
      end
  end.

Definition is_commit_up (n : nat) (e : event) : bool :=
  match e with Commit Upstream k => (k =? n)%nat | _ => false end.

(** What holds of every state reached when the downstream indexer is fed
    by the upstream's commits only: it knows of no section the upstream
    has not committed, and every committed section was committed by an
    event of the run. *)
Definition fed_by_upstream (es : list event) (st : state) : Prop :=
  (known (down st) <= committed (up st))%nat /\
  (forall n, (n < committed (up st))%nat -> existsb (is_commit_up n) es = true).

End Indexers.

(** * Package gcofe: the mobile node wrapper *)
Module Gcofe.

(** A node address as the mobile API hands it around. *)
Definition Enode := N.

Record Enodes := mkEnodes { nodes : list Enode }.

(** [Enodes.Size] (declared with the discovery wrappers of the package):
    the number of nodes held. *)
Definition Size (e : Enodes) : Z := Z.of_nat (List.length (nodes e)).

Record NodeConfig := mkNodeConfig {
  BootstrapNodes : ptr Enodes;
  MaxPeers : Z;
  ConferoEnabled : bool;
  ConferoNetworkID : Z;
  ConferoGenesis : string;
  ConferoDatabaseCache : Z;
  ConferoNetStats : string;
  PprofAddress : string
}.

Definition set_MaxPeers (c : NodeConfig) (v : Z) : NodeConfig :=
  {| BootstrapNodes := BootstrapNodes c; MaxPeers := v;
     ConferoEnabled := ConferoEnabled c; ConferoNetworkID := ConferoNetworkID c;
     ConferoGenesis := ConferoGenesis c;
     ConferoDatabaseCache := ConferoDatabaseCache c;
     ConferoNetStats := ConferoNetStats c; PprofAddress := PprofAddress c |}.

Definition set_BootstrapNodes (c : NodeConfig) (v : ptr Enodes) : NodeConfig :=
  {| BootstrapNodes := v; MaxPeers := MaxPeers c;
     ConferoEnabled := ConferoEnabled c; ConferoNetworkID := ConferoNetworkID c;
     ConferoGenesis := ConferoGenesis c;
     ConferoDatabaseCache := ConferoDatabaseCache c;
     ConferoNetStats := ConferoNetStats c; PprofAddress := PprofAddress c |}.

Definition set_ConferoNetworkID (c : NodeConfig) (v : Z) : NodeConfig :=
  {| BootstrapNodes := BootstrapNodes c; MaxPeers := MaxPeers c;
     ConferoEnabled := ConferoEnabled c; ConferoNetworkID := v;
     ConferoGenesis := ConferoGenesis c;
     ConferoDatabaseCache := ConferoDatabaseCache c;
     ConferoNetStats := ConferoNetStats c; PprofAddress := PprofAddress c |}.

(** [params.*ChainConfig] and a configuration read from a genesis file. *)
Inductive ChainConfig :=
| RopstenChainConfig
| SepoliaChainConfig
| RinkebyChainConfig
| GoerliChainConfig
| FromFile (chainID : N).

(** [core.Genesis]: the chain configuration and the rest of the block. *)
Record Genesis := mkGenesis {
  Config : ptr ChainConfig;
  block : N
}.

Definition set_Config (g : Genesis) (c : ChainConfig) : Genesis :=
  {| Config := addr c; block := block g |}.

(** [nat.Interface]; [NewNode] only uses [nat.Any()]. *)
Inductive nat_Interface := nat_Any.

Record p2p_Config := mkP2P {
  NoDiscovery : bool;
  DiscoveryV5 : bool;
  BootstrapNodesV5 : list Enode;
  ListenAddr : string;
  NAT : nat_Interface;
  P2P_MaxPeers : Z
}.

Record node_Config := mkNodeConf {
  Name : string;
  Version : string;
  DataDir : string;
  KeyStoreDir : string;
  P2P : p2p_Config
}.

Inductive SyncMode := FullSync | SnapSync | LightSync.

(** The fields of [ethconfig.Config] that [NewNode] sets. *)
Record eth_Config := mkEthConf {
  eth_Genesis : ptr Genesis;
  eth_SyncMode : SyncMode;
  NetworkId : Z;
  DatabaseCache : Z
}.

Inductive call :=
| StartPProf (address : string)
| node_New (conf : node_Config)
| Memsize_Add
| les_New (conf : eth_Config) (made : list Les.call)
| ethstats_New (url : string).

Inductive error :=
| ErrNode
| ErrInvalidGenesis
| ErrConferoInit (e : Les.error)
| ErrNetstatsInit.

(** The handle [NewNode] returns: the raw stack built from [conf]. *)
Record Node := mkNode { rawStack : node_Config }.

(** What the calls out of [NewNode] answer. *)
Record Host := mkHost {
  nodeErr : node_Config -> bool;
  Unmarshal : string -> option Genesis;
  lesStartup : node_Config -> eth_Config -> Les.Startup;
  netstatsErr : string -> bool
}.

(** What a call of [NewNode] leaves behind: the configuration the caller's
    pointer refers to afterwards, the calls made, and the result. *)
Record outcome := mkOutcome {
  config' : NodeConfig;
  calls : list call;
  result : Node + error
}.

Section NewNode.
(** Declared in other files of the package. *)
Variable FoundationBootnodes : Enodes.
Variables RopstenGenesis SepoliaGenesis RinkebyGenesis GoerliGenesis : string.
Variables clientIdentifier VersionWithMeta : string.
Variable Join : string -> string -> string.
Variable host : Host.

Definition defaultNodeConfig : NodeConfig :=
  {| BootstrapNodes := addr FoundationBootnodes;
     MaxPeers := 25;
     ConferoEnabled := true;
     ConferoNetworkID := 1;
     ConferoGenesis := "";
     ConferoDatabaseCache := 16;
     ConferoNetStats := "";
     PprofAddress := "" |}.

Definition NewNodeConfig : NodeConfig := defaultNodeConfig.

(** One of the four testnet blocks of [NewNode]:
    [if config.ConferoGenesis == spec { genesis.Config = cc;
       if config.ConferoNetworkID == 1 { config.ConferoNetworkID = id } }]. *)
Definition hardcode (spec : string) (cc : ChainConfig) (id : Z)
  (st : Genesis * NodeConfig) : Genesis * NodeConfig :=
  let (genesis, config) := st in
  if String.eqb (ConferoGenesis config) spec then
    (set_Config genesis cc,
     if (ConferoNetworkID config =? 1)%Z
     then set_ConferoNetworkID config id else config)
  else st.

(** The configuration [NewNode] starts from: the caller's, or a fresh
    copy of the defaults when the caller passes nil. *)
Definition given (config : ptr NodeConfig) : NodeConfig :=
  match config with
  | Some c => c
  | None => NewNodeConfig
  end.

(** The head of [NewNode]: "If no or partial configurations were
    specified, use defaults". *)
Definition withDefaults (config : ptr NodeConfig) : run NodeConfig :=
  let config := given config in
  let config := if (MaxPeers config =? 0)%Z
                then set_MaxPeers config (MaxPeers defaultNodeConfig)
                else config in
  empty <- negb (not_nil (BootstrapNodes config))
             ||| (b <- deref (BootstrapNodes config) ;; ret (Size b =? 0)%Z) ;;
  ret (if empty
       then set_BootstrapNodes config (BootstrapNodes defaultNodeConfig)
       else config).

(** "Create the empty networking stack": the [node.Config] literal. *)
Definition nodeConf (datadir : string) (config : NodeConfig) (boot : Enodes)
  : node_Config :=
  {| Name := clientIdentifier;
     Version := VersionWithMeta;
     DataDir := datadir;
     KeyStoreDir := Join datadir "keystore";
     P2P := {| NoDiscovery := true;
               DiscoveryV5 := true;
               BootstrapNodesV5 := nodes boot;
               ListenAddr := ":0";
               NAT := nat_Any;
               P2P_MaxPeers := MaxPeers config |} |}.

(** The four testnet blocks, in the order of the source. *)
Definition testnets (st : Genesis * NodeConfig) : Genesis * NodeConfig :=
  let st := hardcode RopstenGenesis RopstenChainConfig 3 st in
  let st := hardcode SepoliaGenesis SepoliaChainConfig 11155111 st in
  let st := hardcode RinkebyGenesis RinkebyChainConfig 4 st in
  let st := hardcode GoerliGenesis GoerliChainConfig 5 st in
  st.

(** The [ethconfig.Config] handed to [les.New]. *)
Definition ethConf (genesis : ptr Genesis) (config : NodeConfig) : eth_Config :=
  {| eth_Genesis := genesis;
     eth_SyncMode := LightSync;
     NetworkId := uint64_of_int64 (ConferoNetworkID config);
     DatabaseCache := ConferoDatabaseCache config |}.

(** "Register the Confero protocol if requested", down to the final
    [return]: [t] are the calls made so far. *)
Definition register (nodeConf : node_Config) (t : list call)
  (genesis : ptr Genesis) (config : NodeConfig) : outcome :=
  if ConferoEnabled config then
    let ethConf := ethConf genesis config in
    let (made, backend) := Les.New (lesStartup host nodeConf ethConf) in
    let t := t ++ [les_New ethConf made] in
    match backend with
    | inr e => mkOutcome config t (inr (ErrConferoInit e))
    | inl _ =>
        if negb (String.eqb (ConferoNetStats config) "") then
          let t := t ++ [ethstats_New (ConferoNetStats config)] in
          if netstatsErr host (ConferoNetStats config)
          then mkOutcome config t (inr ErrNetstatsInit)
          else mkOutcome config t (inl (mkNode nodeConf))
        else mkOutcome config t (inl (mkNode nodeConf))
    end
  else mkOutcome config t (inl (mkNode nodeConf)).

Definition NewNode (datadir : string) (config : ptr NodeConfig) : run outcome :=
  config <- withDefaults config ;;
  let t := if negb (String.eqb (PprofAddress config) "")
           then [StartPProf (PprofAddress config)] else [] in
  boot <- deref (BootstrapNodes config) ;;
  let nodeConf := nodeConf datadir config boot in
  let t := t ++ [node_New nodeConf] in
  if nodeErr host nodeConf then ret (mkOutcome config t (inr ErrNode)) else
  let t := t ++ [Memsize_Add] in
  if negb (String.eqb (ConferoGenesis config) "") then
    match Unmarshal host (ConferoGenesis config) with
    | None => ret (mkOutcome config t (inr ErrInvalidGenesis))
    | Some genesis =>
        let st := testnets (genesis, config) in
        ret (register nodeConf t (addr (fst st)) (snd st))
    end
  else ret (register nodeConf t nil config).

End NewNode.

End Gcofe.

(** * Vocabulary of the statements *)
Module Reading.

Import Les.

(** The state [Start] establishes before the server pool may query:
    the UDP path is on only if discovery v5 exists. *)
Definition ready (s : LightConfero) : Prop :=
  udpEnabled s = true -> DiscV5 (p2pServer s) <> nil.

(** The record whose "les" entry [vfxVersion] reads, in the words of its
    comment: the record itself when it has a sequence number, else the
    record the node sends on request, if UDP is on, the request succeeds
    and that record has a sequence number. *)
Definition record_read (s : LightConfero) (n : Node) : option Node :=
  if (Seq n =? 0)%N then
    if udpEnabled s then
      match DiscV5 (p2pServer s) with
      | Some d =>
          match RequestENR d n with
          | (Some m, false) => if (Seq m =? 0)%N then None else Some m
          | _ => None
          end
      | None => None
      end
    else None
  else Some n.

(** The client after [vfxVersion]: a record that had to be fetched is
    persisted in the server pool. *)
Definition after_read (s : LightConfero) (n : Node) : LightConfero :=
  match record_read s n with
  | Some m => if (Seq n =? 0)%N
              then with_serverPool s (Persist (serverPool s) m) else s
  | None => s
  end.

(** The version a "les" entry advertises: its first element, decoded;
    0 when there is no first element or it is no unsigned integer. *)
Definition advertised (rlp : Codec) (e : lesEntry) : uint :=
  match e with
  | Listed (v :: _) => match DecodeUint rlp v with Some x => x | None => 0%N end
  | _ => 0%N
  end.

(** The capacity query [prenegQuery] sends. *)
Definition query (rlp : Codec) (name : string) : Requests :=
  Add rlp [] "les" name
    {| Bias := 180%N; AddTokens := [ {| Type_ := 0%N; Value := 0%Z |} ] |}.

(** The three outcomes of the negotiator and the value the query function
    reports for each; a fourth value, -1, is reported when no usable
    answer arrived. *)
Definition Unsupported : Z := 1.
Definition Busy : Z := 0.
Definition Available : Z := 1.
Definition NoAnswer : Z := -1.

(** The specification's reading of a missing reply: a query that yields no
    decodable reply is reported like a candidate without negotiation. *)
Definition missing_reply_is_unsupported : Prop :=
  forall (rlp : Codec) (name : string) s n v s',
  ready s ->
  vfxVersion rlp s n = Done (v, s') -> (1 <= v)%N ->
  VfluxRequest rlp s' n (query rlp name) = Done nil_slice ->
  prenegQuery rlp name s n = Done (Unsupported, s').

(** The specification's reading of [vfxVersion]: an entry holding a
    version and further fields always yields that version, and 0 comes
    out only of an absent, unloadable or empty entry. *)
Definition version_read_from_every_entry : Prop :=
  forall (rlp : Codec) s n,
  ready s ->
  (forall v extra x, les n = Listed (v :: extra) -> DecodeUint rlp v = Some x ->
     exists s', vfxVersion rlp s n = Done (x, s')) /\
  (forall s', vfxVersion rlp s n = Done (0%N, s') ->
     les n = Absent \/ les n = Undecodable \/ les n = Listed []).

End Reading.

(** * Concrete worlds used to run the definitions *)
Module Sample.

Import Les.

Definition x00 : byte := Byte.x00.

(** A codec fixed on the few byte strings the samples use: the one-byte
    strings 01..7f are the integers 1..127, the byte 80 is the integer 0;
    a reply batch is one reply holding its bytes unchanged, a capacity
    reply is the list of its bytes read as numbers. *)
Definition codec : Codec :=
  {| EncodeRequests := fun _ => [Byte.xc0];
     EncodeCapacityQueryReq := fun _ => [Byte.xc0];
     DecodeReplies := fun b => match b with
                               | [] => None
                               | Byte.xff :: _ => None
                               | _ => Some [b]
                               end;
     DecodeUint := fun raw =>
       match raw with
       | [b] => if (Byte.to_N b <? 128)%N
                then (if (Byte.to_N b =? 0)%N then None else Some (Byte.to_N b))
                else if (Byte.to_N b =? 128)%N then Some 0%N else None
       | _ => None
       end;
     DecodeCapacityQueryReply := fun b => Some (map Byte.to_N b) |}.

Definition pool : ServerPool := {| DialNode := fun n => n; persisted := [] |}.

(** A network in which requests for records fail and talk requests are
    answered with [answer]. *)
Definition udp (answer : slice byte) : UDPv5 :=
  {| RequestENR := fun _ => (nil, true);
     TalkRequest := fun _ _ _ => (answer, negb (not_nil answer)) |}.

Definition client (answer : slice byte) : LightConfero :=
  {| udpEnabled := true;
     p2pServer := {| DiscV5 := addr (udp answer) |};
     serverPool := pool |}.

Definition offline : LightConfero :=
  {| udpEnabled := false; p2pServer := {| DiscV5 := nil |}; serverPool := pool |}.

(** A signed record advertising "les" version 1 and one further field. *)
Definition server : Node :=
  {| ID := 1%N; Seq := 7%N; les := Listed [[Byte.x01]; [Byte.x2a]] |}.

(** The same entry in a record without sequence number. *)
Definition unsigned_server : Node :=
  {| ID := 2%N; Seq := 0%N; les := Listed [[Byte.x01]; [Byte.x2a]] |}.

(** A signed record whose "les" entry starts with the encoding of 0. *)
Definition version0_server : Node :=
  {| ID := 3%N; Seq := 7%N; les := Listed [[Byte.x80]; [Byte.x2a]] |}.

(** A signed record whose "les" entry starts with an element that is no
    unsigned integer (the encoding of the empty list). *)
Definition garbled_server : Node :=
  {| ID := 5%N; Seq := 7%N; les := Listed [[Byte.xc0]; [Byte.x2a]] |}.

Definition plain : Node := {| ID := 4%N; Seq := 7%N; les := Absent |}.

Definition startup : Startup :=
  {| chainDbErr := false; lesDbErr := false; genesisErr := NoError;
     chainConfigLines := ["ChainID: 1"%string];
     lightChainErr := false; ulc := false;
     stackServer := {| DiscV5 := addr (udp nil_slice) |};
     DiscoveryV5 := true; newPool := pool |}.

Definition host : Gcofe.Host :=
  {| Gcofe.nodeErr := fun _ => false;
     Gcofe.Unmarshal := fun s => Some {| Gcofe.Config := nil; Gcofe.block := 0%N |};
     Gcofe.lesStartup := fun _ _ => startup;
     Gcofe.netstatsErr := fun _ => false |}.

Definition bootnodes : Gcofe.Enodes := {| Gcofe.nodes := [1%N; 2%N] |}.

Definition config (genesis : string) (id : Z) : Gcofe.NodeConfig :=
  {| Gcofe.BootstrapNodes := nil;
     Gcofe.MaxPeers := 0;
     Gcofe.ConferoEnabled := true;
     Gcofe.ConferoNetworkID := id;
     Gcofe.ConferoGenesis := genesis;
     Gcofe.ConferoDatabaseCache := 16;
     Gcofe.ConferoNetStats := "";
     Gcofe.PprofAddress := "" |}.

Definition NewNode :=
  Gcofe.NewNode bootnodes "ropsten" "sepolia" "rinkeby" "goerli"
    "Gcofe" "1.0" (fun a b => (a ++ "/" ++ b)%string) host.

End Sample.

(** * Package trezor: the remaining generated methods *)
Module TrezorOps.

Import Trezor.

(** [Reset]: [*m = T{}].  The store goes through the receiver, so a nil
    receiver panics; afterwards the receiver points to the zero message. *)
Definition store {T} (m : ptr T) (v : T) : run (ptr T) :=
  _ <- deref m ;; ret (addr v).

Definition ConferoGetPublicKey_Reset (m : ptr ConferoGetPublicKey.t) :=
  store m (ConferoGetPublicKey.mk nil_slice nil).

Definition ConferoPublicKey_Reset {H} (m : ptr (ConferoPublicKey.t H)) :=
  store m (ConferoPublicKey.mk nil nil).

Definition ConferoGetAddress_Reset (m : ptr ConferoGetAddress.t) :=
  store m (ConferoGetAddress.mk nil_slice nil).

Definition ConferoAddress_Reset (m : ptr ConferoAddress.t) :=
  store m (ConferoAddress.mk nil_slice nil).

Definition ConferoSignTx_Reset (m : ptr ConferoSignTx.t) :=
  store m (ConferoSignTx.mk nil_slice nil_slice nil_slice nil_slice nil_slice
             nil nil_slice nil_slice nil nil nil).

Definition ConferoTxRequest_Reset (m : ptr ConferoTxRequest.t) :=
  store m (ConferoTxRequest.mk nil nil nil_slice nil_slice).

Definition ConferoTxAck_Reset (m : ptr ConferoTxAck.t) :=
  store m (ConferoTxAck.mk nil_slice).

Definition ConferoSignMessage_Reset (m : ptr ConferoSignMessage.t) :=
  store m (ConferoSignMessage.mk nil_slice nil_slice).

Definition ConferoMessageSignature_Reset (m : ptr ConferoMessageSignature.t) :=
  store m (ConferoMessageSignature.mk nil_slice nil_slice nil).

Definition ConferoVerifyMessage_Reset (m : ptr ConferoVerifyMessage.t) :=
  store m (ConferoVerifyMessage.mk nil_slice nil_slice nil_slice nil).

(** A getter together with the [Reset] of its message type. *)
Record reader := Reader {
  r_recv : Type;
  r_res : Type;
  r_reset : ptr r_recv -> run (ptr r_recv);
  r_get : ptr r_recv -> run r_res;
  r_zero : r_res
}.

Section Readers.
Variable HDNodeType : Type.

Definition readers : list reader :=
  [ Reader ConferoGetPublicKey_Reset ConferoGetPublicKey.GetAddressN nil_slice;
    Reader ConferoGetPublicKey_Reset ConferoGetPublicKey.GetShowDisplay false;
    Reader (@ConferoPublicKey_Reset HDNodeType) (@ConferoPublicKey.GetNode _) nil;
    Reader (@ConferoPublicKey_Reset HDNodeType) (@ConferoPublicKey.GetXpub _)
      EmptyString;
    Reader ConferoGetAddress_Reset ConferoGetAddress.GetAddressN nil_slice;
    Reader ConferoGetAddress_Reset ConferoGetAddress.GetShowDisplay false;
    Reader ConferoAddress_Reset ConferoAddress.GetAddressBin nil_slice;
    Reader ConferoAddress_Reset ConferoAddress.GetAddressHex EmptyString;
    Reader ConferoSignTx_Reset ConferoSignTx.GetAddressN nil_slice;
    Reader ConferoSignTx_Reset ConferoSignTx.GetNonce nil_slice;
    Reader ConferoSignTx_Reset ConferoSignTx.GetGasPrice nil_slice;
    Reader ConferoSignTx_Reset ConferoSignTx.GetGasLimit nil_slice;
    Reader ConferoSignTx_Reset ConferoSignTx.GetToBin nil_slice;
    Reader ConferoSignTx_Reset ConferoSignTx.GetToHex EmptyString;
    Reader ConferoSignTx_Reset ConferoSignTx.GetValue nil_slice;
    Reader ConferoSignTx_Reset ConferoSignTx.GetDataInitialChunk nil_slice;
    Reader ConferoSignTx_Reset ConferoSignTx.GetDataLength 0%N;
    Reader ConferoSignTx_Reset ConferoSignTx.GetChainId 0%N;
    Reader ConferoSignTx_Reset ConferoSignTx.GetTxType 0%N;
    Reader ConferoTxRequest_Reset ConferoTxRequest.GetDataLength 0%N;
    Reader ConferoTxRequest_Reset ConferoTxRequest.GetSignatureV 0%N;
    Reader ConferoTxRequest_Reset ConferoTxRequest.GetSignatureR nil_slice;
    Reader ConferoTxRequest_Reset ConferoTxRequest.GetSignatureS nil_slice;
    Reader ConferoTxAck_Reset ConferoTxAck.GetDataChunk nil_slice;
    Reader ConferoSignMessage_Reset ConferoSignMessage.GetAddressN nil_slice;
    Reader ConferoSignMessage_Reset ConferoSignMessage.GetMessage nil_slice;
    Reader ConferoMessageSignature_Reset ConferoMessageSignature.GetAddressBin
      nil_slice;
    Reader ConferoMessageSignature_Reset ConferoMessageSignature.GetSignature
      nil_slice;
    Reader ConferoMessageSignature_Reset ConferoMessageSignature.GetAddressHex
      EmptyString;
    Reader ConferoVerifyMessage_Reset ConferoVerifyMessage.GetAddressBin nil_slice;
    Reader ConferoVerifyMessage_Reset ConferoVerifyMessage.GetSignature nil_slice;
    Reader ConferoVerifyMessage_Reset ConferoVerifyMessage.GetMessage nil_slice;
    Reader ConferoVerifyMessage_Reset ConferoVerifyMessage.GetAddressHex
      EmptyString ].
End Readers.

(** What [Reset] followed by a getter gives, and what [Reset] does on a
    nil receiver. *)
Definition reset_clears (g : reader) : Prop :=
  r_reset g nil = Panic NilDereference /\
  forall r, exists m, r_reset g (addr r) = Done m /\ m <> nil /\
                      r_get g m = Done (r_zero g).

(** The ten message types. *)
Inductive message :=
| ConferoGetPublicKey | ConferoPublicKey | ConferoGetAddress | ConferoAddress
| ConferoSignTx | ConferoTxRequest | ConferoTxAck | ConferoSignMessage
| ConferoMessageSignature | ConferoVerifyMessage.

Definition message_eqb (a b : message) : bool :=
  match a, b with
  | ConferoGetPublicKey, ConferoGetPublicKey
  | ConferoPublicKey, ConferoPublicKey
  | ConferoGetAddress, ConferoGetAddress
  | ConferoAddress, ConferoAddress
  | ConferoSignTx, ConferoSignTx
  | ConferoTxRequest, ConferoTxRequest
  | ConferoTxAck, ConferoTxAck
  | ConferoSignMessage, ConferoSignMessage
  | ConferoMessageSignature, ConferoMessageSignature
  | ConferoVerifyMessage, ConferoVerifyMessage => true
  | _, _ => false
  end.

(** [Descriptor]: the index path of the message in the file descriptor
    (the descriptor bytes are the same for all). *)
Definition Descriptor (m : message) : list Z :=
  match m with
  | ConferoGetPublicKey => [0%Z]
  | ConferoPublicKey => [1%Z]
  | ConferoGetAddress => [2%Z]
  | ConferoAddress => [3%Z]
  | ConferoSignTx => [4%Z]
  | ConferoTxRequest => [5%Z]
  | ConferoTxAck => [6%Z]
  | ConferoSignMessage => [7%Z]
  | ConferoMessageSignature => [8%Z]
  | ConferoVerifyMessage => [9%Z]
  end.

(** [init]: the calls of [proto.RegisterType], in order. *)
Definition registered : list (message * string) :=
  [ (ConferoGetPublicKey, "hw.trezor.messages.ethereum.EthereumGetPublicKey");
    (ConferoPublicKey, "hw.trezor.messages.ethereum.EthereumPublicKey");
    (ConferoGetAddress, "hw.trezor.messages.ethereum.EthereumGetAddress");
    (ConferoAddress, "hw.trezor.messages.ethereum.EthereumAddress");
    (ConferoSignTx, "hw.trezor.messages.ethereum.EthereumSignTx");
    (ConferoTxRequest, "hw.trezor.messages.ethereum.EthereumTxRequest");
    (ConferoTxAck, "hw.trezor.messages.ethereum.EthereumTxAck");
    (ConferoSignMessage, "hw.trezor.messages.ethereum.EthereumSignMessage");
    (ConferoMessageSignature,
     "hw.trezor.messages.ethereum.EthereumMessageSignature");
    (ConferoVerifyMessage, "hw.trezor.messages.ethereum.EthereumVerifyMessage") ]%string.

(** The name a message is registered under, if any. *)
Definition wire_name (m : message) : option string :=
  match find (fun e => message_eqb m (fst e)) registered with
  | Some e => Some (snd e)
  | None => None
  end.

(** The message registered under a name, if any. *)
Definition lookup_name (name : string) : option message :=
  match find (fun e => String.eqb name (snd e)) registered with
  | Some e => Some (fst e)
  | None => None
  end.

End TrezorOps.

(** * Package les: [Start] and the bookkeeping of [New] and [Stop] *)
Module LesRun.

Import Les.

Inductive severity := LvlWarn | LvlError.

Inductive start_call :=
| SLog (lvl : severity) (msg : string)
| TrackerStart
| SetupDiscovery
| AddSource
| PoolStart
| WgAdd
| StartBloomHandlers
| HandlerStart.

Definition start_call_eqb (a b : start_call) : bool :=
  match a, b with
  | SLog LvlWarn x, SLog LvlWarn y | SLog LvlError x, SLog LvlError y =>
      String.eqb x y
  | TrackerStart, TrackerStart | SetupDiscovery, SetupDiscovery
  | AddSource, AddSource | PoolStart, PoolStart | WgAdd, WgAdd
  | StartBloomHandlers, StartBloomHandlers | HandlerStart, HandlerStart => true
  | _, _ => false
  end.

(** [Start]: the calls it makes, the client it leaves and whether it
    returns an error.  [discoveryErr] tells whether [setupDiscovery] fails
    on the client it is called on.  The update of [udpEnabled] is
    [Les.Start]. *)
Definition Start_run (discoveryErr : LightConfero -> bool) (s : LightConfero)
  : list start_call * LightConfero * bool :=
  let t := [SLog LvlWarn "Light client mode is an experimental feature";
            TrackerStart] in
  let t := if udpEnabled s && negb (not_nil (DiscV5 (p2pServer s)))
           then t ++ [SLog LvlError "Discovery v5 is not initialized"]
           else t in
  let s := Start s in
  let t := t ++ [SetupDiscovery] in
  if discoveryErr s then (t, s, true) else
  let t := t ++ [AddSource; PoolStart; WgAdd; StartBloomHandlers; HandlerStart] in
  (t, s, false).

(** The part a call of [New] brings into being: a constructor call fills
    its field, [NewServerPool] gives the server pool, the two
    [OpenDatabase] calls give the databases. *)
Definition creates (c : call) : option part.t :=
  match c with
  | Make p => Some p
  | NewServerPool _ => Some part.serverPool
  | OpenDatabase name =>
      if String.eqb name "lightchaindata" then Some part.chainDb
      else if String.eqb name "les.client" then Some part.lesDb
      else None
  | _ => None
  end.

Fixpoint created (t : list call) : list part.t :=
  match t with
  | [] => []
  | c :: t' => match creates c with
               | Some p => p :: created t'
               | None => created t'
               end
  end.

Fixpoint started (t : list call) : list part.t :=
  match t with
  | [] => []
  | StartIndexer p :: t' => p :: started t'
  | _ :: t' => started t'
  end.











End LesRun.

(** * Package gcofe: [NewNode] after the defaults *)
Module GcofeRun.

Import Gcofe.

Definition is_les_New (c : call) : bool :=
  match c with les_New _ _ => true | _ => false end.

Definition is_ethstats_New (c : call) : bool :=
  match c with ethstats_New _ => true | _ => false end.

Definition is_node_New (c : call) : bool :=
  match c with node_New _ => true | _ => false end.

Definition is_StartPProf (c : call) : bool :=
  match c with StartPProf _ => true | _ => false end.


(** The bootstrap nodes a configuration asks for: its own when it has
    any, else the default ones. *)
Definition wanted_bootnodes (FoundationBootnodes : Enodes) (c : NodeConfig)
  : list Enode :=
  match BootstrapNodes c with
  | Some b => if (Size b =? 0)%Z then nodes FoundationBootnodes else nodes b
  | None => nodes FoundationBootnodes
  end.

(** An [int64]. *)
Definition is_int64 (x : Z) : Prop := (- 2 ^ 63 <= x < 2 ^ 63)%Z.

End GcofeRun.

(** * Further concrete worlds *)
Module Sample2.

Import Les Sample.

(** A network in which the node sends [server] as its record and answers
    talk requests with [answer]. *)
Definition answering (answer : slice byte) : UDPv5 :=
  {| RequestENR := fun _ => (addr server, false);
     TalkRequest := fun _ _ _ => (answer, false) |}.

Definition talking (answer : slice byte) : LightConfero :=
  {| udpEnabled := true;
     p2pServer := {| DiscV5 := addr (answering answer) |};
     serverPool := pool |}.

(** A client as [New] leaves it when discovery v5 was asked for but the
    p2p server has none. *)
Definition unready : LightConfero :=
  {| udpEnabled := true; p2pServer := {| DiscV5 := nil |}; serverPool := pool |}.



(** A configuration that switches the Confero protocol off but asks for
    statistics. *)
Definition quiet_config : Gcofe.NodeConfig :=
  {| Gcofe.BootstrapNodes := addr {| Gcofe.nodes := [] |};
     Gcofe.MaxPeers := 50;
     Gcofe.ConferoEnabled := false;
     Gcofe.ConferoNetworkID := 1;
     Gcofe.ConferoGenesis := "rinkeby";
     Gcofe.ConferoDatabaseCache := 16;
     Gcofe.ConferoNetStats := "node:secret@host:3000";
     Gcofe.PprofAddress := "127.0.0.1:6060" |}.

End Sample2.

(** * Properties of the generated getters *)
Section TrezorFacts.

Import Trezor.

Local Ltac split_field :=
  repeat match goal with
         | |- context [match ?p with Some _ => _ | None => _ end] =>
             destruct p; cbv
         end.

Local Ltac by_cases_on_receiver :=
  split; [| split];
  [ intros [r|]; [destruct r|]; cbv; split_field; eexists; reflexivity
  | reflexivity
  | intros r; destruct r; cbv; split_field; intros;
    (reflexivity || discriminate) ].

(** C10. Every generated getter of the Trezor message types returns, and
    never dereferences a nil pointer: on a nil receiver and on a receiver
    whose field is unset it yields the zero value of the field's type
    (nil slice, nil pointer, false, 0 or the empty string). *)
Theorem getters_total_on_nil :
  forall HDNodeType : Type, Forall nil_safe (generated_getters HDNodeType).
Proof.
  intros H. unfold generated_getters.
  repeat (apply Forall_cons; [unfold nil_safe; cbn [get zero unset]; by_cases_on_receiver|]).
  apply Forall_nil.
Qed.

End TrezorFacts.

(** * Properties of the capacity negotiation *)
Section NegotiationFacts.

Import Les Reading.

Variable rlp : Codec.
Variable CapacityQueryName : string.

Lemma Start_ready : forall s, ready (Start s).
Proof.
  intros [u [d] p]; unfold ready, Start, Go.nil; cbn.
  destruct u, d; cbn; intros; congruence.
Qed.

Lemma ready_after_read : forall s n, ready s -> ready (after_read s n).
Proof.
  intros s n H. unfold after_read.
  destruct (record_read s n); [destruct (Seq n =? 0)%N|]; auto.
Qed.

Lemma refresh_reads :
  forall s n, ready s ->
  refresh s n =
  Done (match record_read s n with
        | Some m => inr (m, after_read s n)
        | None => inl 0%N
        end).
Proof.
  intros s n H. unfold refresh, after_read, record_read.
  destruct (Seq n =? 0)%N eqn:Hseq; [|reflexivity].
  destruct (udpEnabled s) eqn:Hu; cbn; [|reflexivity].
  destruct (DiscV5 (p2pServer s)) as [d|] eqn:Hd; cbn.
  - destruct (RequestENR d n) as [[m|] [|]]; cbn; try reflexivity.
    destruct (Seq m =? 0)%N; reflexivity.
  - exfalso. apply (H Hu). exact Hd.
Qed.

Lemma vfxVersion_reads :
  forall s n, ready s ->
  vfxVersion rlp s n =
  Done (match record_read s n with
        | Some m => advertised rlp (les m)
        | None => 0%N
        end, after_read s n).
Proof.
  intros s n H. unfold vfxVersion. rewrite (refresh_reads n H).
  unfold after_read.
  destruct (record_read s n) as [m|]; cbn; [|reflexivity].
  unfold Load_les.
  destruct (les m) as [| |[|v extra]]; cbn; reflexivity.
Qed.

Lemma VfluxRequest_returns :
  forall s n reqs, ready s -> returns (VfluxRequest rlp s n reqs).
Proof.
  intros s n reqs H. unfold VfluxRequest, returns.
  destruct (udpEnabled s) eqn:Hu; cbn; [|eexists; reflexivity].
  destruct (DiscV5 (p2pServer s)) as [d|] eqn:Hd; cbn.
  - destruct (len _ =? 0)%nat; [eexists; reflexivity|].
    destruct (DecodeReplies rlp _); eexists; reflexivity.
  - exfalso. apply (H Hu). exact Hd.
Qed.

Lemma Get_nil : forall i, Get rlp nil_slice i = (nil_slice, true).
Proof. intros [|i]; reflexivity. Qed.

(** What [prenegQuery] does once the version and the reply batch are
    known. *)
Lemma prenegQuery_unfolds :
  forall s n replies, ready s ->
  VfluxRequest rlp (after_read s n) n (query rlp CapacityQueryName) = Done replies ->
  prenegQuery rlp CapacityQueryName s n =
  Done (match record_read s n with
        | Some m =>
            if (advertised rlp (les m) <? 1)%N then 1%Z else
            match Get rlp replies 0 with
            | (Some [c], false) => if (0 <? c)%N then 1%Z else 0%Z
            | _ => (-1)%Z
            end
        | None => 1%Z
        end, after_read s n).
Proof.
  intros s n replies H Hreq. unfold prenegQuery.
  rewrite (vfxVersion_reads n H). cbn [bind].
  destruct (record_read s n) as [m|]; [|reflexivity].
  destruct (advertised rlp (les m) <? 1)%N; [reflexivity|].
  fold (query rlp CapacityQueryName). rewrite Hreq. cbn [bind].
  destruct (Get rlp replies 0) as [cqr err].
  destruct cqr as [[|c [|c' l]]|], err; cbn; try reflexivity.
  destruct (0 <? c)%N; reflexivity.
Qed.

(** C2. A candidate whose advertised version is below 1 is always worth a
    direct connection (1).  When negotiation is supported and the reply to
    the capacity query decodes to exactly one value, the result is 0
    exactly when that value is 0 and 1 exactly when it is positive. *)
Theorem prenegQuery_verdict :
  forall s n v s',
  vfxVersion rlp s n = Done (v, s') ->
  ((v < 1)%N -> prenegQuery rlp CapacityQueryName s n = Done (1%Z, s')) /\
  (forall replies c,
     (1 <= v)%N ->
     VfluxRequest rlp s' n (query rlp CapacityQueryName) = Done replies ->
     Get rlp replies 0 = (Some [c], false) ->
     exists r, prenegQuery rlp CapacityQueryName s n = Done (r, s') /\
               (r = 0%Z <-> c = 0%N) /\ (r = 1%Z <-> (0 < c)%N)).
Proof.
  intros s n v s' Hv. unfold prenegQuery. rewrite Hv. cbn [bind]. split.
  - intros Hlt. apply N.ltb_lt in Hlt. rewrite Hlt. reflexivity.
  - intros replies c Hle Hreq Hget.
    apply N.ltb_ge in Hle. rewrite Hle.
    fold (query rlp CapacityQueryName). rewrite Hreq. cbn [bind].
    rewrite Hget. cbn.
    destruct (0 <? c)%N eqn:Hc.
    + exists 1%Z. apply N.ltb_lt in Hc. repeat split; intros; try lia; auto.
    + exists 0%Z. apply N.ltb_ge in Hc. repeat split; intros; try lia.
Qed.

(** C1 (amended). When the candidate supports negotiation and the capacity
    query yields no decodable reply, [prenegQuery] reports -1; this value
    differs from the 1 reported for a candidate without negotiation and
    from the 0 reported for a busy one. *)
Theorem missing_reply_reported_apart :
  forall s n v s',
  vfxVersion rlp s n = Done (v, s') ->
  ((v < 1)%N ->
     prenegQuery rlp CapacityQueryName s n = Done (Unsupported, s')) /\
  ((1 <= v)%N ->
     VfluxRequest rlp s' n (query rlp CapacityQueryName) = Done nil_slice ->
     prenegQuery rlp CapacityQueryName s n = Done (NoAnswer, s')) /\
  NoAnswer <> Unsupported /\ NoAnswer <> Busy.
Proof.
  intros s n v s' Hv. unfold prenegQuery. rewrite Hv. cbn [bind].
  split; [|split; [|split; discriminate]].
  - intros Hlt. apply N.ltb_lt in Hlt. rewrite Hlt. reflexivity.
  - intros Hle Hreq. apply N.ltb_ge in Hle. rewrite Hle.
    fold (query rlp CapacityQueryName). rewrite Hreq. reflexivity.
Qed.

(** C5. After [Start], for every node and whatever the network answers,
    [VfluxRequest], [vfxVersion] and [prenegQuery] return and do not
    panic.  [VfluxRequest] returns nil when UDP is disabled, when the
    reply is empty and when it does not decode; [vfxVersion] returns 0
    when the record cannot be fetched and when the record read has no
    usable "les" entry. *)
Theorem negotiation_never_panics :
  forall s0 n reqs,
  let s := Start s0 in
  (returns (VfluxRequest rlp s n reqs) /\
   returns (vfxVersion rlp s n) /\
   returns (prenegQuery rlp CapacityQueryName s n)) /\
  (udpEnabled s = false -> VfluxRequest rlp s n reqs = Done nil_slice) /\
  (forall d, DiscV5 (p2pServer s) = addr d ->
     let repliesEnc :=
       fst (TalkRequest d (DialNode (serverPool s) n) "vfx" (EncodeRequests rlp reqs)) in
     len repliesEnc = O \/ DecodeReplies rlp (elems repliesEnc) = None ->
     VfluxRequest rlp s n reqs = Done nil_slice) /\
  (Seq n = 0%N ->
     udpEnabled s = false \/
     (forall d, DiscV5 (p2pServer s) = addr d ->
        fst (RequestENR d n) = nil \/ snd (RequestENR d n) = true) ->
     vfxVersion rlp s n = Done (0%N, s)) /\
  (forall m,
     record_read s n = Some m ->
     les m = Absent \/ les m = Undecodable \/ les m = Listed [] ->
     vfxVersion rlp s n = Done (0%N, after_read s n)).
Proof.
  intros s0 n reqs s.
  assert (Hr : ready s) by apply Start_ready.
  repeat split.
  - apply VfluxRequest_returns; exact Hr.
  - rewrite (vfxVersion_reads n Hr). eexists; reflexivity.
  - destruct (VfluxRequest_returns n (query rlp CapacityQueryName)
                (ready_after_read n Hr)) as [replies Hreq].
    rewrite (prenegQuery_unfolds n Hr Hreq). eexists; reflexivity.
  - intros Hu. unfold VfluxRequest. rewrite Hu. reflexivity.
  - intros d Hd repliesEnc Hbad. unfold VfluxRequest.
    destruct (udpEnabled s); cbn; [|reflexivity].
    rewrite Hd. cbn. fold repliesEnc.
    destruct Hbad as [Hlen|Hdec].
    + rewrite Hlen. reflexivity.
    + rewrite Hdec. destruct (len repliesEnc =? 0)%nat; reflexivity.
  - intros Hseq Hcannot.
    rewrite (vfxVersion_reads n Hr).
    assert (Hnone : record_read s n = None).
    { unfold record_read. rewrite Hseq. cbn.
      destruct Hcannot as [Hu|Hfail]; [rewrite Hu; reflexivity|].
      destruct (udpEnabled s); [|reflexivity].
      destruct (DiscV5 (p2pServer s)) as [d|]; [|reflexivity].
      specialize (Hfail d eq_refl).
      destruct (RequestENR d n) as [[m|] [|]]; cbn in Hfail;
        destruct Hfail; try discriminate; reflexivity. }
    unfold after_read. rewrite Hnone. reflexivity.
  - intros m Hm Hles. rewrite (vfxVersion_reads n Hr). rewrite Hm.
    destruct Hles as [H|[H|H]]; rewrite H; reflexivity.
Qed.

(** C6 (amended). When the record that is read (the given one if it has a
    sequence number, else a successfully fetched one) has a "les" entry
    with a first element, [vfxVersion] returns what that element decodes
    to, whatever follows it.  It returns 0 exactly when no record can be
    read, when the entry is absent, unloadable or empty, or when the first
    element decodes to 0 or not at all. *)
Theorem vfxVersion_forward_compatible :
  forall s n,
  ready s ->
  (forall m v extra,
     record_read s n = Some m -> les m = Listed (v :: extra) ->
     vfxVersion rlp s n = Done (advertised rlp (Listed [v]), after_read s n)) /\
  (forall s',
     vfxVersion rlp s n = Done (0%N, s') <->
     s' = after_read s n /\
     (record_read s n = None \/
      exists m, record_read s n = Some m /\
        (les m = Absent \/ les m = Undecodable \/ les m = Listed [] \/
         exists v extra, les m = Listed (v :: extra) /\
           (DecodeUint rlp v = None \/ DecodeUint rlp v = Some 0%N)))).
Proof.
  intros s n Hr. split.
  - intros m v extra Hm Hles.
    rewrite (vfxVersion_reads n Hr), Hm, Hles. reflexivity.
  - intros s'. rewrite (vfxVersion_reads n Hr). split.
    + intros Heq. injection Heq as Hv Hs. split; [auto|]. revert Hv.
      destruct (record_read s n) as [m|]; [|left; reflexivity].
      intros Hv. right. exists m. split; [reflexivity|]. revert Hv.
      destruct (les m) as [| |[|v extra]]; auto.
      cbn. intros Hv. right; right; right.
      exists v, extra. split; [reflexivity|].
      revert Hv. destruct (DecodeUint rlp v); intros Hv;
        [right; subst; reflexivity|left; reflexivity].
    + intros [Hs Hcase]. subst s'. f_equal. f_equal.
      destruct Hcase as [Hnone|[m [Hm Hles]]]; [rewrite Hnone; reflexivity|].
      rewrite Hm.
      destruct Hles as [H|[H|[H|[v [extra [H Hdec]]]]]]; rewrite H; try reflexivity.
      cbn. destruct Hdec as [Hd|Hd]; rewrite Hd; reflexivity.
Qed.

End NegotiationFacts.

(** ** The negotiation on concrete candidates *)
Section NegotiationRuns.

Import Les Reading Sample.

Lemma client_ready : forall answer, ready (client answer).
Proof. intros answer _. discriminate. Defined.

(** A candidate that answers the capacity query with the single amount 5
    is worth dialing; one without a "les" entry is dialed directly. *)
Lemma prenegQuery_verdict_witness :
  prenegQuery codec "cq" (client (Some [Byte.x05])) server
    = Done (1%Z, client (Some [Byte.x05])) /\
  prenegQuery codec "cq" (client (Some [Byte.x05])) plain
    = Done (1%Z, client (Some [Byte.x05])).
Proof.
  split.
  - destruct (@prenegQuery_verdict codec "cq" (client (Some [Byte.x05])) server
                1%N (client (Some [Byte.x05])) eq_refl) as [_ H].
    destruct (H (Some [[Byte.x05]]) 5%N) as [r [Hr [_ H1]]];
      [discriminate | reflexivity | reflexivity |].
    rewrite Hr. destruct H1 as [_ H1]. rewrite (H1 eq_refl). reflexivity.
  - destruct (@prenegQuery_verdict codec "cq" (client (Some [Byte.x05])) plain
                0%N (client (Some [Byte.x05])) eq_refl) as [H _].
    apply H. reflexivity.
Defined.

(** C1, as stated, fails: the candidate [server] advertises version 1, its
    query gets no reply, and [prenegQuery] answers -1, not 1. *)
Lemma missing_reply_is_not_unsupported : ~ missing_reply_is_unsupported.
Proof.
  intros H.
  specialize (H codec "cq"%string (client nil_slice) server 1%N (client nil_slice)
                (@client_ready nil_slice) eq_refl).
  assert (Hq : prenegQuery codec "cq" (client nil_slice) server
               = Done (Unsupported, client nil_slice)).
  { apply H; [discriminate | reflexivity]. }
  vm_compute in Hq. discriminate Hq.
Qed.

Lemma missing_reply_reported_apart_witness :
  prenegQuery codec "cq" (client nil_slice) server
    = Done (NoAnswer, client nil_slice).
Proof.
  destruct (@missing_reply_reported_apart codec "cq" (client nil_slice) server
              1%N (client nil_slice) eq_refl) as [_ [H _]].
  apply H; [discriminate | reflexivity].
Defined.

Lemma negotiation_never_panics_witness :
  VfluxRequest codec (Start offline) unsigned_server [] = Done nil_slice /\
  vfxVersion codec (Start offline) unsigned_server = Done (0%N, Start offline) /\
  vfxVersion codec (Start (client nil_slice)) plain
    = Done (0%N, Start (client nil_slice)) /\
  returns (prenegQuery codec "cq" (Start offline) unsigned_server).
Proof.
  destruct (@negotiation_never_panics codec "cq" offline unsigned_server [])
    as [[_ [_ Hp]] [Hnil [_ [Hzero _]]]].
  destruct (@negotiation_never_panics codec "cq" (client nil_slice) plain [])
    as [_ [_ [_ [_ Hentry]]]].
  split; [apply Hnil; reflexivity|].
  split; [apply Hzero; [reflexivity | left; reflexivity]|].
  split; [apply (Hentry plain); [reflexivity | left; reflexivity]|].
  exact Hp.
Defined.

(** C6, as stated, fails: [version0_server] is a signed record whose "les"
    entry loads as a list of two elements, the first being the encoding of
    0; [vfxVersion] answers 0 although the entry is neither absent nor
    unloadable nor empty. *)
Lemma version_not_read_from_every_entry : ~ version_read_from_every_entry.
Proof.
  intros H.
  destruct (H codec (client nil_slice) version0_server (@client_ready nil_slice))
    as [_ Hzero].
  destruct (Hzero (client nil_slice) eq_refl) as [Ha|[Ha|Ha]]; discriminate Ha.
Qed.

(** Two more ways to 0 with an entry that is present and not empty: a
    record without sequence number while UDP is off (the entry, version 1
    and one more field, is not even looked at), and a first element that
    is no unsigned integer (the decoding error is dropped). *)
Example vfxVersion_zero_with_entry :
  vfxVersion codec offline unsigned_server = Done (0%N, offline) /\
  DecodeUint codec [Byte.x01] = Some 1%N /\
  vfxVersion codec (client nil_slice) garbled_server
    = Done (0%N, client nil_slice) /\
  DecodeUint codec [Byte.xc0] = None.
Proof. repeat split; reflexivity. Qed.

Lemma vfxVersion_forward_compatible_witness :
  vfxVersion codec (client nil_slice) server = Done (1%N, client nil_slice).
Proof.
  destruct (@vfxVersion_forward_compatible codec (client nil_slice) server
              (@client_ready nil_slice)) as [H _].
  apply (H server [Byte.x01] [[Byte.x2a]]); reflexivity.
Defined.

End NegotiationRuns.

(** * Properties of the lifecycle *)
Section LifecycleFacts.

Import Les.

Lemma no_mark_in_logs :
  forall lvl lines, existsb is_mark (map (Log lvl) lines) = false.
Proof. induction lines as [|l lines IH]; [reflexivity | exact IH]. Qed.

(** A successful [New] ends with [MarkStartup], its only such call; a
    failing [New] never makes it. *)
Lemma New_marks_last :
  forall w,
  match snd (New w) with
  | inl _ => exists pre, fst (New w) = pre ++ [MarkStartup] /\
                         existsb is_mark pre = false
  | inr _ => existsb is_mark (fst (New w)) = false
  end.
Proof.
  intros w. unfold New.
  destruct (chainDbErr w); [reflexivity|].
  destruct (lesDbErr w); [reflexivity|].
  destruct (genesisErr w); try reflexivity;
    destruct (lightChainErr w); cbn [fst snd];
    try (repeat rewrite existsb_app; rewrite no_mark_in_logs; reflexivity);
    (eexists; split; [reflexivity|]);
    repeat rewrite existsb_app; rewrite no_mark_in_logs;
    destruct (ulc w); reflexivity.
Qed.

(** C3. [Stop] halts the server pool, the peer set and the request
    distributor before anything else it halts, then the ODR layer and,
    after it, the bloom and CHT indexers; the two databases are halted
    last, every other part halted by [Stop] coming before both.  Around
    these calls [Stop] only closes [closeCh] (first) and waits for the
    wait group and logs (last). *)
Theorem Stop_order :
  (exists rest,
     halted Stop = part.serverPool :: part.peers :: part.reqDist :: rest /\
     In part.odr rest /\ In part.bloomIndexer rest /\ In part.chtIndexer rest) /\
  before (halts part.reqDist) (halts part.odr) Stop /\
  before (halts part.odr) (halts part.bloomIndexer) Stop /\
  before (halts part.odr) (halts part.chtIndexer) Stop /\
  (exists front,
     halted Stop = front ++ [part.chainDb; part.lesDb] /\
     forallb (fun p => negb (is_storage p)) front = true) /\
  (forall p, In p (halted Stop) -> is_storage p = false ->
     before (halts p) (halts part.chainDb) Stop /\
     before (halts p) (halts part.lesDb) Stop) /\
  NoDup (halted Stop) /\
  (exists body,
     Stop = CloseCloseCh :: body ++ [WgWait; Log Info "Light confero stopped"] /\
     forallb is_halt body = true).
Proof.
  split; [eexists; split; [reflexivity|cbn; tauto]|].
  do 3 (split; [cbv; lia|]).
  split; [eexists (firstn 14 (halted Stop)); split; reflexivity|].
  split.
  - intros p Hin Hst. cbn in Hin.
    repeat (destruct Hin as [Hin|Hin];
            [subst p; try discriminate Hst; split; cbv; lia|]).
    contradiction.
  - split.
    + cbn. repeat (constructor; [cbn; intuition discriminate|]). constructor.
    + exists (firstn 16 (tl Stop)). split; reflexivity.
Qed.

(** C4. A successful [New] has called [MarkStartup], as its last call
    before returning; [Stop] halts the shutdown tracker before it closes
    [chainDb] and [lesDb]. *)
Theorem startup_marker_lifecycle :
  forall w t s,
  New w = (t, inl s) ->
  (exists pre, t = pre ++ [MarkStartup]) /\
  before (halts part.shutdownTracker) (halts part.chainDb) Stop /\
  before (halts part.shutdownTracker) (halts part.lesDb) Stop.
Proof.
  intros w t s HNew. split; [|split; cbv; lia].
  pose proof (New_marks_last w) as H. rewrite HNew in H. cbn in H.
  destruct H as [pre [Hpre _]]. exists pre. exact Hpre.
Qed.

Lemma marker_app :
  forall t1 t2 b, marker b (t1 ++ t2) = marker (marker b t1) t2.
Proof.
  induction t1 as [|c t1 IH]; intros t2 b; [reflexivity|].
  destruct c; cbn; try apply IH.
  match goal with p : part.t |- _ => destruct p; apply IH end.
Qed.

(** With the marker of the specification: once [New] has succeeded the
    marker is present, it stays present if the process dies anywhere in
    [Stop] before the tracker is halted, and a complete [Stop] clears it. *)
Lemma unclean_exit_leaves_marker :
  forall w t s,
  New w = (t, inl s) ->
  (forall k, (k <= 14)%nat -> marker false (t ++ firstn k Stop) = true) /\
  marker false (t ++ Stop) = false.
Proof.
  intros w t s HNew.
  pose proof (New_marks_last w) as H. rewrite HNew in H. cbn in H.
  destruct H as [pre [Hpre _]]. subst t. split.
  - intros k Hk. rewrite !marker_app. cbn [marker].
    do 15 (destruct k as [|k]; [reflexivity|]). lia.
  - rewrite !marker_app. reflexivity.
Qed.

End LifecycleFacts.

Lemma startup_marker_lifecycle_witness :
  exists pre, fst (Les.New Sample.startup) = pre ++ [Les.MarkStartup].
Proof.
  destruct (@startup_marker_lifecycle Sample.startup
              (fst (Les.New Sample.startup))
              (Sample.client nil_slice) eq_refl) as [H _].
  exact H.
Defined.

(** * Properties of the indexers as [New] wires them *)
Section IndexerFacts.

Import Les Indexers.

Lemma existsb_past_logs :
  forall f lvl lines rest,
  skips_logs f ->
  existsb f (map (Log lvl) lines ++ rest) = existsb f rest.
Proof.
  intros f lvl lines rest Hf.
  induction lines as [|l lines IH]; [reflexivity|].
  cbn. rewrite Hf. exact IH.
Qed.

Lemma position_past_logs :
  forall f lvl lines rest,
  skips_logs f ->
  position f (map (Log lvl) lines ++ rest) =
  match position f rest with
  | Some k => Some (List.length lines + k)%nat
  | None => None
  end.
Proof.
  intros f lvl lines rest Hf.
  induction lines as [|l lines IH]; cbn.
  - destruct (position f rest); reflexivity.
  - rewrite Hf, IH. destruct (position f rest); reflexivity.
Qed.

Lemma add_child_skips_logs :
  forall p q, skips_logs (is_add_child p q).
Proof. intros p q lvl msg. reflexivity. Qed.

Lemma start_skips_logs : forall p, skips_logs (is_start p).
Proof. intros p lvl msg. reflexivity. Qed.

Local Ltac success_trace HNew :=
  unfold New in HNew;
  destruct (chainDbErr _); [discriminate HNew|];
  destruct (lesDbErr _); [discriminate HNew|];
  destruct (genesisErr _); try discriminate HNew;
  (destruct (lightChainErr _); [discriminate HNew|]);
  destruct (ulc _);
  cbv zeta in HNew; rewrite <- !app_assoc in HNew;
  injection HNew as HNew _; subst; cbn [app].

(** A successful [New] adds the Bloom-Trie indexer as child of the bloom
    indexer, starts the bloom indexer on the chain and never starts the
    Bloom-Trie indexer itself. *)
Lemma wiring_of_New :
  forall w t s,
  New w = (t, inl s) ->
  wiring_of t = {| child_of_upstream := true; upstream_started := true;
                   downstream_started := false |}.
Proof.
  intros w t s HNew. unfold wiring_of.
  success_trace HNew; cbn [existsb is_add_child is_start orb];
    rewrite (existsb_past_logs _ _ _ (add_child_skips_logs _ _)),
            !(existsb_past_logs _ _ _ (start_skips_logs _));
    reflexivity.
Qed.

Lemma add_child_before_start :
  forall w t s,
  New w = (t, inl s) ->
  before (is_add_child part.bloomIndexer part.bloomTrieIndexer)
         (is_start part.bloomIndexer) t.
Proof.
  intros w t s HNew. unfold before.
  success_trace HNew; cbn [position is_add_child is_start];
    rewrite (position_past_logs _ _ _ (add_child_skips_logs _ _)),
            (position_past_logs _ _ _ (start_skips_logs _));
    cbn; lia.
Qed.

Lemma exec_app :
  forall w es1 es2 st,
  exec w st (es1 ++ es2) =
  match exec w st es1 with
  | Some st' => exec w st' es2
  | None => None
  end.
Proof.
  induction es1 as [|e es1 IH]; intros es2 st; [reflexivity|].
  cbn. destruct (step w st e); [apply IH | reflexivity].
Qed.

Lemma committed_learn :
  forall b k i, committed (learn b k i) = committed i.
Proof. intros [|] k i; reflexivity. Qed.

Lemma fed_by_upstream_step :
  forall w es st e st',
  downstream_started w = false ->
  fed_by_upstream es st ->
  step w st e = Some st' ->
  fed_by_upstream (es ++ [e]) st'.
Proof.
  intros w es st e st' Hw [Hk Hc] Hstep.
  assert (Hold : forall n, (n < committed (up st))%nat ->
                 existsb (is_commit_up n) (es ++ [e]) = true).
  { intros n Hn. rewrite existsb_app, (Hc n Hn). reflexivity. }
  unfold fed_by_upstream.
  destruct e as [k|[|] n|[|] n|[|]]; cbn in Hstep.
  - injection Hstep as <-. rewrite Hw.
    change (learn false k (down st)) with (down st).
    split; cbn [up down].
    + rewrite committed_learn. exact Hk.
    + intros n. rewrite committed_learn. apply Hold.
  - destruct (can_begin (up st) n); [|discriminate].
    injection Hstep as <-. cbn. split; [lia | exact Hold].
  - destruct (can_begin (down st) n); [|discriminate].
    injection Hstep as <-. cbn. split; [lia | exact Hold].
  - destruct (can_commit (up st) n) eqn:Hcan; [|discriminate].
    injection Hstep as <-. cbn.
    unfold can_commit in Hcan.
    apply andb_prop in Hcan. destruct Hcan as [Hn _].
    apply Nat.eqb_eq in Hn. subst n. split.
    + unfold learn. destruct (child_of_upstream w); cbn; lia.
    + intros n Hn. rewrite existsb_app.
      destruct (Nat.eq_dec n (committed (up st))) as [->|Hne].
      * cbn. rewrite Nat.eqb_refl. apply orb_true_iff. right. reflexivity.
      * rewrite Hc; [reflexivity | lia].
  - destruct (can_commit (down st) n); [|discriminate].
    injection Hstep as <-. cbn. split; [lia | exact Hold].
  - injection Hstep as <-. cbn. split; [lia | exact Hold].
  - injection Hstep as <-. cbn. split; [lia | exact Hold].
Qed.

Lemma fed_by_upstream_reached :
  forall w es st,
  downstream_started w = false ->
  exec w init es = Some st ->
  fed_by_upstream es st.
Proof.
  intros w es. induction es as [|e es IH] using rev_ind; intros st Hw Hex.
  - injection Hex as <-. split; [cbn; lia | cbn; intros; lia].
  - rewrite exec_app in Hex.
    destruct (exec w init es) as [st0|] eqn:H0; [|discriminate].
    cbn in Hex. destruct (step w st0 e) as [st1|] eqn:H1; [|discriminate].
    injection Hex as <-.
    eapply fed_by_upstream_step; eauto.
Qed.

(** C7. A successful [New] registers the Bloom-Trie indexer as a child of
    the bloom-bits indexer, before the latter is started and without
    starting the former on the chain.  So wired, in every run of the two
    indexers the Bloom-Trie indexer begins a section N only after the
    bloom-bits indexer has committed its section N. *)
Theorem bloom_trie_follows_bloom_bits :
  forall w t s,
  New w = (t, inl s) ->
  before (is_add_child part.bloomIndexer part.bloomTrieIndexer)
         (is_start part.bloomIndexer) t /\
  existsb (is_start part.bloomTrieIndexer) t = false /\
  (forall es1 N es2 st,
     exec (wiring_of t) init (es1 ++ Begin Downstream N :: es2) = Some st ->
     existsb (is_commit_up N) es1 = true).
Proof.
  intros w t s HNew.
  pose proof (wiring_of_New w HNew) as Hw.
  split; [|split].
  - exact (add_child_before_start w HNew).
  - change (downstream_started (wiring_of t) = false). rewrite Hw. reflexivity.
  - intros es1 N es2 st Hex. rewrite exec_app in Hex.
    destruct (exec (wiring_of t) init es1) as [st1|] eqn:H1; [|discriminate].
    cbn in Hex.
    destruct (can_begin (down st1) N) eqn:Hcan; [|discriminate].
    assert (Hfed : fed_by_upstream es1 st1).
    { eapply fed_by_upstream_reached; [|exact H1]. rewrite Hw. reflexivity. }
    destruct Hfed as [Hk Hc]. apply Hc.
    unfold can_begin in Hcan.
    apply andb_prop in Hcan. destruct Hcan as [_ Hlt].
    apply Nat.ltb_lt in Hlt. lia.
Qed.

End IndexerFacts.

(** * Properties of the mobile node constructor *)
Section NewNodeFacts.

Import Gcofe.

Variable FoundationBootnodes : Enodes.
Variables RopstenGenesis SepoliaGenesis RinkebyGenesis GoerliGenesis : string.
Variables clientIdentifier VersionWithMeta : string.
Variable Join : string -> string -> string.
Variable host : Host.

Local Abbreviation withDefaults := (withDefaults FoundationBootnodes).
Local Abbreviation given := (given FoundationBootnodes).
Local Abbreviation nodeConf := (nodeConf clientIdentifier VersionWithMeta Join).
Local Abbreviation testnets :=
  (testnets RopstenGenesis SepoliaGenesis RinkebyGenesis GoerliGenesis).
Local Abbreviation NewNode :=
  (NewNode FoundationBootnodes RopstenGenesis SepoliaGenesis RinkebyGenesis
     GoerliGenesis clientIdentifier VersionWithMeta Join host).

Lemma withDefaults_returns :
  forall config,
  exists c0 boot,
    withDefaults config = Done c0 /\
    BootstrapNodes c0 = addr boot /\
    MaxPeers c0 = (if (MaxPeers (given config) =? 0)%Z then 25%Z
                   else MaxPeers (given config)) /\
    ConferoNetworkID c0 = ConferoNetworkID (given config) /\
    ConferoGenesis c0 = ConferoGenesis (given config) /\
    ConferoEnabled c0 = ConferoEnabled (given config).
Proof.
  intros config. unfold Gcofe.withDefaults.
  destruct (MaxPeers (given config) =? 0)%Z eqn:Hmp;
    cbn [BootstrapNodes set_MaxPeers];
    (destruct (BootstrapNodes (given config)) as [b|] eqn:Hb; cbn;
     [destruct (Size b =? 0)%Z; cbn|]);
    eexists; eexists; (split; [reflexivity|]); cbn;
    rewrite ?Hmp, ?Hb; repeat split; reflexivity.
Qed.

Lemma hardcode_keeps :
  forall spec cc id st,
  MaxPeers (snd (hardcode spec cc id st)) = MaxPeers (snd st) /\
  ConferoGenesis (snd (hardcode spec cc id st)) = ConferoGenesis (snd st) /\
  ConferoEnabled (snd (hardcode spec cc id st)) = ConferoEnabled (snd st).
Proof.
  intros spec cc id [g c]. unfold hardcode. cbn [snd].
  destruct (String.eqb (ConferoGenesis c) spec); cbn [snd]; [|auto].
  destruct (ConferoNetworkID c =? 1)%Z; cbn; auto.
Qed.

Lemma hardcode_id :
  forall spec cc id st,
  ConferoNetworkID (snd (hardcode spec cc id st)) =
  if String.eqb (ConferoGenesis (snd st)) spec
     && (ConferoNetworkID (snd st) =? 1)%Z
  then id else ConferoNetworkID (snd st).
Proof.
  intros spec cc id [g c]. unfold hardcode. cbn [snd].
  destruct (String.eqb (ConferoGenesis c) spec); cbn [snd andb]; [|reflexivity].
  destruct (ConferoNetworkID c =? 1)%Z; reflexivity.
Qed.

Lemma testnets_keeps :
  forall st,
  MaxPeers (snd (testnets st)) = MaxPeers (snd st) /\
  ConferoGenesis (snd (testnets st)) = ConferoGenesis (snd st) /\
  ConferoEnabled (snd (testnets st)) = ConferoEnabled (snd st).
Proof.
  intros st. unfold Gcofe.testnets. cbv zeta.
  repeat match goal with
         | |- context [hardcode ?s ?c ?i ?x] =>
             let H := fresh in
             destruct (hardcode_keeps s c i x) as [H [? ?]];
             rewrite H; clear H
         end.
  repeat split; congruence.
Qed.

(** The network identifier after the four testnet blocks. *)
Lemma testnets_id :
  forall st,
  ConferoNetworkID (snd (testnets st)) =
  if (ConferoNetworkID (snd st) =? 1)%Z then
    if String.eqb (ConferoGenesis (snd st)) RopstenGenesis then 3%Z
    else if String.eqb (ConferoGenesis (snd st)) SepoliaGenesis then 11155111%Z
    else if String.eqb (ConferoGenesis (snd st)) RinkebyGenesis then 4%Z
    else if String.eqb (ConferoGenesis (snd st)) GoerliGenesis then 5%Z
    else 1%Z
  else ConferoNetworkID (snd st).
Proof.
  intros st. unfold Gcofe.testnets. cbv zeta.
  rewrite !hardcode_id.
  repeat match goal with
         | |- context [ConferoGenesis (snd (hardcode ?s ?c ?i ?x))] =>
             let H := fresh in
             destruct (hardcode_keeps s c i x) as [_ [H _]];
             rewrite H; clear H
         end.
  destruct (ConferoNetworkID (snd st) =? 1)%Z eqn:Hid.
  - apply Z.eqb_eq in Hid. rewrite Hid.
    destruct (String.eqb (ConferoGenesis (snd st)) RopstenGenesis);
      destruct (String.eqb (ConferoGenesis (snd st)) SepoliaGenesis);
      destruct (String.eqb (ConferoGenesis (snd st)) RinkebyGenesis);
      destruct (String.eqb (ConferoGenesis (snd st)) GoerliGenesis);
      reflexivity.
  - repeat (progress (rewrite ?Hid, ?andb_false_r; cbv iota)). reflexivity.
Qed.

(** What every call of [NewNode] does: it returns, it creates the stack
    once, from the configuration with defaults filled in, and it leaves
    the caller's configuration as the defaults or the testnet blocks made
    it. *)
Local Ltac only_node_New :=
  split;
  [ let H := fresh "Hin" in
    intros H; repeat (destruct H as [H|H]);
    first [ contradiction
          | discriminate H
          | injection H as H; subst; reflexivity ]
  | intros ->; auto 10 ].

Lemma NewNode_outcome :
  forall datadir config,
  exists o c0 boot,
    withDefaults config = Done c0 /\
    BootstrapNodes c0 = addr boot /\
    NewNode datadir config = Done o /\
    (forall conf, In (node_New conf) (calls o) <->
                  conf = nodeConf datadir c0 boot) /\
    (forall nd, result o = inl nd -> rawStack nd = nodeConf datadir c0 boot) /\
    (config' o = c0 \/ exists g, config' o = snd (testnets (g, c0))) /\
    (forall g,
       nodeErr host (nodeConf datadir c0 boot) = false ->
       ConferoGenesis c0 <> ""%string ->
       Unmarshal host (ConferoGenesis c0) = Some g ->
       config' o = snd (testnets (g, c0)) /\
       (ConferoEnabled c0 = true ->
        exists made,
          In (les_New (ethConf (addr (fst (testnets (g, c0)))) (config' o)) made)
             (calls o))).
Proof.
  intros datadir config.
  destruct (withDefaults_returns config) as [c0 [boot [Hwd [Hboot _]]]].
  unfold Gcofe.NewNode. rewrite Hwd. cbn [bind]. rewrite Hboot.
  cbn [deref addr bind]. cbv zeta.
  set (nc := nodeConf datadir c0 boot).
  set (pp := if negb (String.eqb (PprofAddress c0) "")
             then [StartPProf (PprofAddress c0)] else []).
  assert (Hpp : forall conf, ~ In (node_New conf) pp).
  { intros conf. unfold pp. destruct (negb _); cbn; [intuition discriminate | tauto]. }
  destruct (nodeErr host nc) eqn:Hnode.
  { eexists; exists c0, boot.
    split; [reflexivity|]. split; [exact Hboot|]. split; [reflexivity|].
    cbn [calls result config'].
    split; [|split; [discriminate|split; [left; reflexivity|]]];
      [|intros g Hn; unfold nc in Hnode; congruence].
    intros conf. rewrite in_app_iff. cbn. specialize (Hpp conf).
    only_node_New. }
  assert (Hreg : forall g c,
            (forall conf, In (node_New conf)
                            (calls (register host nc ((pp ++ [node_New nc]) ++ [Memsize_Add]) g c))
                          <-> conf = nc) /\
            (forall nd, result (register host nc ((pp ++ [node_New nc]) ++ [Memsize_Add]) g c) = inl nd ->
                        rawStack nd = nc) /\
            config' (register host nc ((pp ++ [node_New nc]) ++ [Memsize_Add]) g c) = c /\
            (ConferoEnabled c = true ->
             exists made, In (les_New (ethConf g c) made)
                             (calls (register host nc ((pp ++ [node_New nc]) ++ [Memsize_Add]) g c)))).
  { intros g c. unfold register.
    destruct (ConferoEnabled c); cbv zeta;
      [destruct (Les.New _) as [made [backend|e]];
       [destruct (negb (String.eqb (ConferoNetStats c) ""));
        [destruct (netstatsErr host (ConferoNetStats c))|]|]|];
      cbn [calls result config'];
      (split; [intros conf; rewrite !in_app_iff; cbn; specialize (Hpp conf);
               only_node_New|]);
      (split; [intros nd Hnd; try discriminate Hnd;
               injection Hnd as <-; reflexivity|]);
      (split; [reflexivity|]);
      intros Hen; try discriminate Hen;
      exists made; rewrite !in_app_iff; cbn; tauto. }
  destruct (String.eqb (ConferoGenesis c0) "") eqn:Hgen; cbn [negb].
  - apply String.eqb_eq in Hgen.
    destruct (Hreg (@nil Genesis) c0) as [H1 [H2 [H3 H4]]].
    eexists; exists c0, boot.
    split; [reflexivity|]. split; [exact Hboot|]. split; [reflexivity|].
    split; [exact H1|]. split; [exact H2|]. split; [left; exact H3|].
    intros g _ Hne. contradiction.
  - destruct (Unmarshal host (ConferoGenesis c0)) as [g0|] eqn:Hum.
    + destruct (Hreg (addr (fst (testnets (g0, c0)))) (snd (testnets (g0, c0))))
        as [H1 [H2 [H3 H4]]].
      eexists; exists c0, boot.
      split; [reflexivity|]. split; [exact Hboot|]. split; [reflexivity|].
      split; [exact H1|]. split; [exact H2|].
      split; [right; exists g0; exact H3|].
      intros g _ _ Hg. rewrite Hum in Hg. injection Hg as <-.
      split; [exact H3|].
      intros Hen. rewrite H3. apply H4.
      destruct (testnets_keeps (g0, c0)) as [_ [_ Hk]]. rewrite Hk. exact Hen.
    + eexists; exists c0, boot.
      split; [reflexivity|]. split; [exact Hboot|]. split; [reflexivity|].
      cbn [calls result config'].
      split; [|split; [discriminate|split; [left; reflexivity|]]];
        [|intros g _ _ Hg; rewrite Hum in Hg; discriminate Hg].
      intros conf. rewrite !in_app_iff. cbn. specialize (Hpp conf).
      only_node_New.
Qed.

(** C8. A configuration with [MaxPeers] 0 is given the default 25 before
    the p2p configuration is built: the stack is created with peer limit
    25, and so is every node [NewNode] returns for it.  Whatever the
    configuration, no node returned by [NewNode] has peer limit 0. *)
Theorem NewNode_zero_MaxPeers_defaulted :
  forall datadir c,
  MaxPeers c = 0%Z ->
  exists o,
    NewNode datadir (addr c) = Done o /\
    MaxPeers (config' o) = 25%Z /\
    (exists conf, In (node_New conf) (calls o)) /\
    (forall conf, In (node_New conf) (calls o) ->
                  P2P_MaxPeers (P2P conf) = 25%Z) /\
    (forall nd, result o = inl nd -> P2P_MaxPeers (P2P (rawStack nd)) = 25%Z) /\
    (forall config', exists o',
       NewNode datadir config' = Done o' /\
       forall nd, result o' = inl nd -> P2P_MaxPeers (P2P (rawStack nd)) <> 0%Z).
Proof.
  intros datadir c Hzero.
  destruct (NewNode_outcome datadir (addr c))
    as [o [c0 [boot [Hwd [Hboot [HN [Hin [Hres [Hcfg _]]]]]]]]].
  destruct (withDefaults_returns (addr c))
    as [c1 [boot1 [Hwd1 [_ [Hmp _]]]]].
  rewrite Hwd in Hwd1. injection Hwd1 as <-.
  cbn [Gcofe.given addr] in Hmp. rewrite Hzero in Hmp. cbn in Hmp.
  exists o. split; [exact HN|].
  split; [|split; [|split; [|split]]].
  - destruct Hcfg as [->|[g ->]]; [exact Hmp|].
    destruct (testnets_keeps (g, c0)) as [Hk _]. rewrite Hk. exact Hmp.
  - exists (nodeConf datadir c0 boot). apply Hin. reflexivity.
  - intros conf Hconf. apply Hin in Hconf. subst conf. exact Hmp.
  - intros nd Hnd. rewrite (Hres nd Hnd). exact Hmp.
  - intros config2.
    destruct (NewNode_outcome datadir config2)
      as [o2 [c2 [boot2 [Hwd2 [_ [HN2 [_ [Hres2 _]]]]]]]].
    destruct (withDefaults_returns config2)
      as [c3 [boot3 [Hwd3 [_ [Hmp3 _]]]]].
    rewrite Hwd2 in Hwd3. injection Hwd3 as <-.
    exists o2. split; [exact HN2|].
    intros nd Hnd. rewrite (Hres2 nd Hnd). cbn [P2P P2P_MaxPeers Gcofe.nodeConf].
    rewrite Hmp3.
    destruct (MaxPeers (given config2) =? 0)%Z eqn:Hz; [discriminate|].
    apply Z.eqb_neq in Hz. exact Hz.
Qed.

(** C9. With network identifier 1 and a genesis string equal to one of
    the testnet specs, [NewNode], once the stack is created and the
    genesis parsed, sets the identifier to 3 (Ropsten), 11155111
    (Sepolia), 4 (Rinkeby) or 5 (Goerli), and hands it to the light
    client; an identifier other than 1 is never changed. *)
Theorem NewNode_testnet_network_id :
  forall datadir c o,
  NewNode datadir (addr c) = Done o ->
  (ConferoNetworkID c <> 1%Z ->
   ConferoNetworkID (config' o) = ConferoNetworkID c) /\
  (forall g conf,
     ConferoNetworkID c = 1%Z ->
     In (node_New conf) (calls o) -> nodeErr host conf = false ->
     ConferoGenesis c <> ""%string ->
     Unmarshal host (ConferoGenesis c) = Some g ->
     (ConferoGenesis c = RopstenGenesis ->
      ConferoNetworkID (config' o) = 3%Z) /\
     (ConferoGenesis c = SepoliaGenesis ->
      SepoliaGenesis <> RopstenGenesis ->
      ConferoNetworkID (config' o) = 11155111%Z) /\
     (ConferoGenesis c = RinkebyGenesis ->
      RinkebyGenesis <> RopstenGenesis -> RinkebyGenesis <> SepoliaGenesis ->
      ConferoNetworkID (config' o) = 4%Z) /\
     (ConferoGenesis c = GoerliGenesis ->
      GoerliGenesis <> RopstenGenesis -> GoerliGenesis <> SepoliaGenesis ->
      GoerliGenesis <> RinkebyGenesis ->
      ConferoNetworkID (config' o) = 5%Z) /\
     (ConferoEnabled c = true ->
      exists ec made,
        In (les_New ec made) (calls o) /\
        NetworkId ec = uint64_of_int64 (ConferoNetworkID (config' o)))).
Proof.
  intros datadir c o HNew.
  destruct (NewNode_outcome datadir (addr c))
    as [o' [c0 [boot [Hwd [Hboot [HN [Hin [Hres [Hcfg Hgen]]]]]]]]].
  rewrite HNew in HN. injection HN as <-.
  destruct (withDefaults_returns (addr c))
    as [c1 [boot1 [Hwd1 [_ [_ [Hid [Hg Hen]]]]]]].
  rewrite Hwd in Hwd1. injection Hwd1 as <-.
  cbn [Gcofe.given addr] in Hid, Hg, Hen.
  split.
  - intros Hne. destruct Hcfg as [->|[g ->]]; [exact Hid|].
    rewrite testnets_id. cbn [snd]. rewrite Hid.
    apply Z.eqb_neq in Hne. rewrite Hne. reflexivity.
  - intros g conf Hone Hconf Hnode Hnonempty Hparse.
    apply Hin in Hconf. subst conf.
    rewrite <- Hg in Hnonempty, Hparse.
    destruct (Hgen g Hnode Hnonempty Hparse) as [Hcfg' Hles].
    assert (Hnet : ConferoNetworkID (config' o) =
                   if String.eqb (ConferoGenesis c) RopstenGenesis then 3%Z
                   else if String.eqb (ConferoGenesis c) SepoliaGenesis then 11155111%Z
                   else if String.eqb (ConferoGenesis c) RinkebyGenesis then 4%Z
                   else if String.eqb (ConferoGenesis c) GoerliGenesis then 5%Z
                   else 1%Z).
    { rewrite Hcfg', testnets_id. cbn [snd]. rewrite Hid, Hone, Hg. reflexivity. }
    repeat split.
    + intros Hr. rewrite Hnet, Hr, String.eqb_refl. reflexivity.
    + intros Hr H1. rewrite Hnet, Hr.
      apply String.eqb_neq in H1. rewrite H1, String.eqb_refl. reflexivity.
    + intros Hr H1 H2. rewrite Hnet, Hr.
      apply String.eqb_neq in H1, H2. rewrite H1, H2, String.eqb_refl. reflexivity.
    + intros Hr H1 H2 H3. rewrite Hnet, Hr.
      apply String.eqb_neq in H1, H2, H3.
      rewrite H1, H2, H3, String.eqb_refl. reflexivity.
    + intros Henabled. rewrite <- Hen in Henabled.
      destruct (Hles Henabled) as [made Hmade].
      eexists; exists made. split; [exact Hmade | reflexivity].
Qed.

End NewNodeFacts.

(** * The statements on concrete runs *)

Lemma bloom_trie_follows_bloom_bits_witness :
  existsb (Indexers.is_commit_up 0)
    [Indexers.Headers 1; Indexers.Begin Indexers.Upstream 0;
     Indexers.Commit Indexers.Upstream 0] = true.
Proof.
  destruct (@bloom_trie_follows_bloom_bits Sample.startup
              (fst (Les.New Sample.startup)) (Sample.client nil_slice) eq_refl)
    as [_ [_ H]].
  eapply (H _ 0%nat []). reflexivity.
Defined.

(** Wired the other way round - the downstream indexer started on the
    chain itself - the model lets it begin a section the upstream has not
    committed. *)
Example unwired_indexer_runs_ahead :
  exists st,
    Indexers.exec
      {| Indexers.child_of_upstream := false; Indexers.upstream_started := true;
         Indexers.downstream_started := true |}
      Indexers.init
      [Indexers.Headers 1; Indexers.Begin Indexers.Downstream 0] = Some st /\
    Indexers.committed (Indexers.up st) = 0%nat.
Proof. eexists. split; reflexivity. Qed.

Lemma NewNode_zero_MaxPeers_defaulted_witness :
  exists o,
    Sample.NewNode "/data" (addr (Sample.config "" 1)) = Done o /\
    Gcofe.MaxPeers (Gcofe.config' o) = 25%Z /\
    forall nd, Gcofe.result o = inl nd ->
               Gcofe.P2P_MaxPeers (Gcofe.P2P (Gcofe.rawStack nd)) = 25%Z.
Proof.
  destruct (@NewNode_zero_MaxPeers_defaulted Sample.bootnodes
              "ropsten" "sepolia" "rinkeby" "goerli" "Gcofe" "1.0"
              (fun a b => (a ++ "/" ++ b)%string) Sample.host
              "/data" (Sample.config "" 1) eq_refl)
    as [o [H1 [H2 [_ [_ [H3 _]]]]]].
  exists o. split; [exact H1|]. split; [exact H2 | exact H3].
Defined.

Lemma NewNode_testnet_network_id_witness :
  exists o,
    Sample.NewNode "/data" (addr (Sample.config "sepolia" 1)) = Done o /\
    Gcofe.ConferoNetworkID (Gcofe.config' o) = 11155111%Z.
Proof.
  eexists. split; [reflexivity|].
  eapply (@NewNode_testnet_network_id Sample.bootnodes
            "ropsten" "sepolia" "rinkeby" "goerli" "Gcofe" "1.0"
            (fun a b => (a ++ "/" ++ b)%string) Sample.host
            "/data" (Sample.config "sepolia" 1) _ eq_refl).
  - reflexivity.
  - left. reflexivity.
  - reflexivity.
  - discriminate.
  - reflexivity.
  - reflexivity.
  - discriminate.
Defined.

Lemma Stop_order_witness :
  Les.before (Les.halts Les.part.pruner) (Les.halts Les.part.chainDb) Les.Stop /\
  Les.before (Les.halts Les.part.pruner) (Les.halts Les.part.lesDb) Les.Stop.
Proof.
  destruct Stop_order as [_ [_ [_ [_ [_ [H _]]]]]].
  apply (H Les.part.pruner); [cbn; tauto | reflexivity].
Defined.

Lemma getters_total_on_nil_witness :
  Trezor.ConferoSignTx.GetDataLength nil = Done 0%N /\
  Trezor.ConferoGetPublicKey.GetShowDisplay nil = Done false.
Proof.
  pose proof (getters_total_on_nil unit) as H.
  rewrite Forall_forall in H. split.
  - apply (H (Trezor.Getter Trezor.ConferoSignTx.GetDataLength 0%N
                (fun r => Trezor.opt_unset (Trezor.ConferoSignTx.DataLength r)))).
    cbn. tauto.
  - apply (H (Trezor.Getter Trezor.ConferoGetPublicKey.GetShowDisplay false
                (fun r => Trezor.opt_unset (Trezor.ConferoGetPublicKey.ShowDisplay r)))).
    cbn. tauto.
Defined.

(** * Further properties of the Trezor messages *)
Section TrezorOpsFacts.

Import Trezor TrezorOps.

Local Ltac by_reset :=
  split;
  [ reflexivity
  | intros r; eexists; split; [reflexivity | split; [discriminate | reflexivity]] ].

(** X1. For every message type, [Reset] on a nil receiver panics (unlike
    the getters), and after [Reset] on any message every getter of that
    message returns the zero value of its field. *)
Theorem reset_then_get_zero :
  forall HDNodeType : Type, Forall reset_clears (readers HDNodeType).
Proof.
  intros H. unfold readers.
  repeat (apply Forall_cons;
          [unfold reset_clears; cbn [r_reset r_get r_zero]; by_reset|]).
  apply Forall_nil.
Qed.

Lemma lookup_name_wire_name :
  forall name m, lookup_name name = Some m -> wire_name m = Some name.
Proof.
  intros name m. unfold lookup_name, registered. cbn [find snd fst].
  repeat match goal with
         | |- context [String.eqb name ?s] =>
             let E := fresh "E" in
             destruct (String.eqb name s) eqn:E;
             [apply String.eqb_eq in E; subst name;
              intros Hm; injection Hm as <-; reflexivity|]
         end.
  discriminate.
Qed.

(** X2. The registration table of the package is consistent: the ten
    message types are registered under ten different names, all in the
    namespace [hw.trezor.messages.ethereum] with the upstream [Ethereum]
    type names; looking a message up by its name and a name up by its
    message are inverse to each other; and the i-th registered type is the
    one whose [Descriptor] path is [[i]]. *)
Theorem registration_consistent :
  NoDup (map snd registered) /\
  (forall m, exists name,
     wire_name m = Some name /\ lookup_name name = Some m /\
     String.prefix "hw.trezor.messages.ethereum.Ethereum" name = true) /\
  (forall name m, lookup_name name = Some m -> wire_name m = Some name) /\
  (forall i m name,
     nth_error registered i = Some (m, name) -> Descriptor m = [Z.of_nat i]).
Proof.
  split; [|split; [|split]].
  - cbn. repeat (constructor; [cbn; intuition discriminate|]). constructor.
  - intros m. destruct m; eexists; repeat split; reflexivity.
  - exact lookup_name_wire_name.
  - intros i m name Hi.
    do 10 (destruct i as [|i]; [injection Hi as <- _; reflexivity|]).
    destruct i; discriminate Hi.
Qed.

End TrezorOpsFacts.

Lemma registration_consistent_witness :
  TrezorOps.wire_name TrezorOps.ConferoSignTx
    = Some "hw.trezor.messages.ethereum.EthereumSignTx"%string /\
  TrezorOps.Descriptor TrezorOps.ConferoSignTx = [4%Z].
Proof.
  destruct registration_consistent as [_ [_ [Hback Hidx]]]. split.
  - apply Hback. reflexivity.
  - apply (Hidx 4%nat TrezorOps.ConferoSignTx
             "hw.trezor.messages.ethereum.EthereumSignTx"%string).
    reflexivity.
Defined.

(** * Further properties of the capacity negotiation *)
Section NegotiationMore.

Import Les Reading.

Variable rlp : Codec.
Variable CapacityQueryName : string.

Lemma not_ready :
  forall s, ~ ready s -> udpEnabled s = true /\ DiscV5 (p2pServer s) = nil.
Proof.
  intros s H. unfold ready in H.
  destruct (udpEnabled s); [|exfalso; apply H; discriminate].
  destruct (DiscV5 (p2pServer s)); [|split; reflexivity].
  exfalso. apply H. discriminate.
Qed.

Lemma ready_dec : forall s, ready s \/ ~ ready s.
Proof.
  intros s. unfold ready.
  destruct (udpEnabled s); [|left; discriminate].
  destruct (DiscV5 (p2pServer s)); [left; discriminate|].
  right. intros H. apply H; reflexivity.
Qed.

(** [vfxVersion] on any client: it answers as on a ready one unless it has
    to fetch the record through a discovery that is not there. *)
Lemma vfxVersion_cases :
  forall s n,
  (vfxVersion rlp s n =
     Done (match record_read s n with
           | Some m => advertised rlp (les m)
           | None => 0%N
           end, after_read s n) /\
   (ready s \/ Seq n <> 0%N)) \/
  (vfxVersion rlp s n = Panic NilDereference /\
   udpEnabled s = true /\ DiscV5 (p2pServer s) = nil /\ Seq n = 0%N).
Proof.
  intros s n. destruct (ready_dec s) as [Hr|Hn].
  - left. split; [apply vfxVersion_reads; exact Hr | left; exact Hr].
  - destruct (not_ready Hn) as [Hu Hd].
    destruct (Seq n =? 0)%N eqn:Hseq.
    + right. apply N.eqb_eq in Hseq.
      unfold vfxVersion, refresh. rewrite Hseq, Hu, Hd. auto.
    + left. split; [|right; apply N.eqb_neq; exact Hseq].
      unfold vfxVersion, refresh, after_read, record_read. rewrite Hseq.
      cbn. unfold Load_les.
      destruct (les n) as [| |[|v extra]]; reflexivity.
Qed.

Lemma VfluxRequest_cases :
  forall s n reqs,
  VfluxRequest rlp s n reqs = Done nil_slice \/
  (udpEnabled s = true /\
   exists d l,
     DiscV5 (p2pServer s) = addr d /\
     len (fst (TalkRequest d (DialNode (serverPool s) n) "vfx"
                 (EncodeRequests rlp reqs))) <> O /\
     DecodeReplies rlp
       (elems (fst (TalkRequest d (DialNode (serverPool s) n) "vfx"
                      (EncodeRequests rlp reqs)))) = Some l /\
     VfluxRequest rlp s n reqs = Done (Some l)) \/
  (udpEnabled s = true /\ DiscV5 (p2pServer s) = nil /\
   VfluxRequest rlp s n reqs = Panic NilDereference).
Proof.
  intros s n reqs. unfold VfluxRequest.
  destruct (udpEnabled s); cbn; [|left; reflexivity].
  destruct (DiscV5 (p2pServer s)) as [d|]; cbn; [|right; right; auto].
  destruct (len _ =? 0)%nat eqn:Hlen; [left; reflexivity|].
  destruct (DecodeReplies rlp _) as [l|] eqn:Hdec; [|left; reflexivity].
  right. left. split; [reflexivity|].
  exists d, l. apply Nat.eqb_neq in Hlen. auto.
Qed.

(** The verdict [prenegQuery] reads off a decoded reply. *)
Lemma prenegQuery_inv :
  forall s n r s',
  prenegQuery rlp CapacityQueryName s n = Done (r, s') ->
  exists v,
    vfxVersion rlp s n = Done (v, s') /\
    (((v < 1)%N /\ r = 1%Z) \/
     ((1 <= v)%N /\
      exists replies,
        VfluxRequest rlp s' n (query rlp CapacityQueryName) = Done replies /\
        r = match Get rlp replies 0 with
            | (Some [c], false) => if (0 <? c)%N then 1%Z else 0%Z
            | _ => (-1)%Z
            end)).
Proof.
  intros s n r s'. unfold prenegQuery.
  destruct (vfxVersion rlp s n) as [[v s1]|w]; cbn [bind]; [|discriminate].
  destruct (v <? 1)%N eqn:Hv.
  - intros H. injection H as <- <-. exists v. split; [reflexivity|].
    left. apply N.ltb_lt in Hv. auto.
  - fold (query rlp CapacityQueryName).
    destruct (VfluxRequest rlp s1 n (query rlp CapacityQueryName))
      as [replies|w] eqn:Hreq; cbn [bind]; [|discriminate].
    intros H. exists v.
    assert (Hs : s1 = s' /\
                 r = match Get rlp replies 0 with
                     | (Some [c], false) => if (0 <? c)%N then 1%Z else 0%Z
                     | _ => (-1)%Z
                     end).
    { revert H. destruct (Get rlp replies 0) as [cqr err].
      destruct cqr as [[|c [|c' l]]|], err; cbn;
        try (intros H; injection H as <- <-; auto).
      destruct (0 <? c)%N; intros H; injection H as <- <-; auto. }
    destruct Hs as [Hs Hr]. subst s1. split; [reflexivity|].
    right. apply N.ltb_ge in Hv. split; [exact Hv|].
    exists replies. split; [exact Hreq | exact Hr].
Qed.

(** [prenegQuery] changes neither the UDP switch nor the p2p server. *)
Lemma prenegQuery_keeps_network :
  forall s n r s',
  prenegQuery rlp CapacityQueryName s n = Done (r, s') ->
  udpEnabled s' = udpEnabled s /\ p2pServer s' = p2pServer s.
Proof.
  intros s n r s' H.
  destruct (prenegQuery_inv _ _ H) as [v [Hv _]].
  destruct (vfxVersion_cases s n) as [[Hd _]|[Hp _]];
    [|rewrite Hp in Hv; discriminate].
  rewrite Hd in Hv. injection Hv as _ <-.
  unfold after_read.
  destruct (record_read s n); [destruct (Seq n =? 0)%N|]; auto.
Qed.

(** X3. Whenever [prenegQuery] returns, its result is -1, 0 or 1, and the
    client it leaves differs from the one it started on at most in the
    records persisted by the server pool: at most one record is added, only
    when the given record had sequence number 0, and the added record is
    the one the node sent, with a non-zero sequence number. *)
Theorem prenegQuery_result_and_effect :
  forall s n r s',
  prenegQuery rlp CapacityQueryName s n = Done (r, s') ->
  (r = (-1)%Z \/ r = 0%Z \/ r = 1%Z) /\
  udpEnabled s' = udpEnabled s /\
  p2pServer s' = p2pServer s /\
  DialNode (serverPool s') = DialNode (serverPool s) /\
  (persisted (serverPool s') = persisted (serverPool s) \/
   exists d m,
     Seq n = 0%N /\ DiscV5 (p2pServer s) = addr d /\
     RequestENR d n = (addr m, false) /\ Seq m <> 0%N /\
     persisted (serverPool s') = m :: persisted (serverPool s)).
Proof.
  intros s n r s' H.
  destruct (prenegQuery_inv _ _ H) as [v [Hv Hr]]. split.
  - destruct Hr as [[_ ->]|[_ [replies [_ ->]]]]; [auto|].
    destruct (Get rlp replies 0) as [[[|c [|c' l]]|] [|]]; auto.
    destruct (0 <? c)%N; auto.
  - destruct (vfxVersion_cases s n) as [[Hd _]|[Hp _]];
      [|rewrite Hp in Hv; discriminate].
    rewrite Hd in Hv. injection Hv as _ <-.
    unfold after_read, record_read.
    destruct (Seq n =? 0)%N eqn:Hseq;
      [|do 3 (split; [auto|]); left; reflexivity].
    destruct (udpEnabled s) eqn:Hu;
      [|do 3 (split; [auto|]); left; reflexivity].
    destruct (DiscV5 (p2pServer s)) as [d|] eqn:Hdisc;
      [|do 3 (split; [auto|]); left; reflexivity].
    destruct (RequestENR d n) as [[m|] [|]] eqn:Hreq;
      try (do 3 (split; [auto|]); left; reflexivity).
    destruct (Seq m =? 0)%N eqn:Hm;
      [do 3 (split; [auto|]); left; reflexivity|].
    cbn. do 3 (split; [auto|]).
    right. exists d, m. apply N.eqb_eq in Hseq. apply N.eqb_neq in Hm. auto 6.
Qed.

(** X4. [prenegQuery] reports 0 (busy) only on a real answer: UDP is on,
    the candidate advertises a version of at least 1, its reply is not
    empty, decodes to a batch, and the first reply of the batch decodes to
    the single amount 0.  It reports 1 only for a version below 1 or on
    such an answer with a single positive amount. *)
Theorem prenegQuery_verdict_needs_answer :
  forall s n r s',
  prenegQuery rlp CapacityQueryName s n = Done (r, s') ->
  r <> (-1)%Z ->
  exists v,
    vfxVersion rlp s n = Done (v, s') /\
    (((v < 1)%N /\ r = 1%Z) \/
     ((1 <= v)%N /\ udpEnabled s = true /\
      exists d l enc c,
        DiscV5 (p2pServer s) = addr d /\
        len (fst (TalkRequest d (DialNode (serverPool s') n) "vfx"
                    (EncodeRequests rlp (query rlp CapacityQueryName)))) <> O /\
        DecodeReplies rlp
          (elems (fst (TalkRequest d (DialNode (serverPool s') n) "vfx"
                         (EncodeRequests rlp (query rlp CapacityQueryName)))))
          = Some l /\
        nth_error l 0 = Some enc /\
        DecodeCapacityQueryReply rlp enc = Some [c] /\
        ((r = 0%Z /\ c = 0%N) \/ (r = 1%Z /\ (0 < c)%N)))).
Proof.
  intros s n r s' H Hne.
  destruct (prenegQuery_inv _ _ H) as [v [Hv Hr]].
  pose proof (prenegQuery_keeps_network _ _ H) as [Hu Hp].
  exists v. split; [exact Hv|].
  destruct Hr as [Hlow|[Hhigh [replies [Hreq Hr]]]]; [left; exact Hlow|].
  right. split; [exact Hhigh|].
  destruct (VfluxRequest_cases s' n (query rlp CapacityQueryName))
    as [Hnil|[[Hon [d [l [Hd [Hlen [Hdec Hsome]]]]]]|[_ [_ Hpanic]]]].
  - rewrite Hnil in Hreq. injection Hreq as <-.
    rewrite Get_nil in Hr. contradiction.
  - rewrite Hsome in Hreq. injection Hreq as <-.
    rewrite <- Hu, Hon. split; [reflexivity|].
    revert Hr. unfold Get. cbn [elems].
    destruct (nth_error l 0) as [enc|] eqn:Hnth; [|intros ->; contradiction].
    destruct (DecodeCapacityQueryReply rlp enc) as [cqr|] eqn:Hcqr;
      [|intros ->; contradiction].
    destruct cqr as [|c [|c' cs]]; try (intros ->; contradiction).
    intros Hr. exists d, l, enc, c. rewrite <- Hp.
    repeat split; auto.
    destruct (0 <? c)%N eqn:Hc.
    + right. apply N.ltb_lt in Hc. auto.
    + left. apply N.ltb_ge in Hc. split; [exact Hr | lia].
  - rewrite Hpanic in Hreq. discriminate.
Qed.

(** X5. With UDP off [prenegQuery] never touches the network or the server
    pool: it answers 1 for a record without sequence number or advertising
    a version below 1, and -1 for every signed record advertising a version
    of at least 1. *)
Theorem prenegQuery_without_udp :
  forall s n,
  udpEnabled s = false ->
  prenegQuery rlp CapacityQueryName s n =
  Done (if (Seq n =? 0)%N || (advertised rlp (les n) <? 1)%N
        then 1%Z else (-1)%Z, s).
Proof.
  intros s n Hu.
  assert (Hr : ready s) by (intros H; congruence).
  assert (Hread : record_read s n = if (Seq n =? 0)%N then None else Some n).
  { unfold record_read. rewrite Hu. reflexivity. }
  assert (Hafter : after_read s n = s).
  { unfold after_read. rewrite Hread. destruct (Seq n =? 0)%N; reflexivity. }
  assert (Hreq : VfluxRequest rlp (after_read s n) n (query rlp CapacityQueryName)
                 = Done nil_slice).
  { rewrite Hafter. unfold VfluxRequest. rewrite Hu. reflexivity. }
  rewrite (@prenegQuery_unfolds rlp CapacityQueryName s n _ Hr Hreq),
    Hafter, Hread.
  destruct (Seq n =? 0)%N; [reflexivity|]. cbn [orb].
  destruct (advertised rlp (les n) <? 1)%N; reflexivity.
Qed.


End NegotiationMore.

Lemma prenegQuery_result_and_effect_witness :
  exists d m,
    Les.Seq Sample.unsigned_server = 0%N /\
    Les.DiscV5 (Les.p2pServer (Sample2.talking (Some [Byte.x00]))) = addr d /\
    Les.RequestENR d Sample.unsigned_server = (addr m, false) /\
    Les.Seq m <> 0%N /\
    Les.persisted
      (Les.serverPool
         (Les.with_serverPool (Sample2.talking (Some [Byte.x00]))
            (Les.Persist Sample.pool Sample.server)))
    = m :: Les.persisted (Les.serverPool (Sample2.talking (Some [Byte.x00]))).
Proof.
  destruct (@prenegQuery_result_and_effect Sample.codec "cq"
              (Sample2.talking (Some [Byte.x00])) Sample.unsigned_server 0%Z
              (Les.with_serverPool (Sample2.talking (Some [Byte.x00]))
                 (Les.Persist Sample.pool Sample.server)) eq_refl)
    as [_ [_ [_ [_ [H|H]]]]].
  - discriminate H.
  - exact H.
Defined.

Lemma prenegQuery_verdict_needs_answer_witness :
  exists v,
    Les.vfxVersion Sample.codec (Sample2.talking (Some [Byte.x00])) Sample.server
      = Done (v, Sample2.talking (Some [Byte.x00])) /\ (1 <= v)%N.
Proof.
  destruct (@prenegQuery_verdict_needs_answer Sample.codec "cq"
              (Sample2.talking (Some [Byte.x00])) Sample.server 0%Z
              (Sample2.talking (Some [Byte.x00])) eq_refl)
    as [v [Hv [[_ H]|[H _]]]]; [discriminate | discriminate H |].
  exists v. split; [exact Hv | exact H].
Defined.

Lemma prenegQuery_without_udp_witness :
  Les.prenegQuery Sample.codec "cq" Sample.offline Sample.server
    = Done ((-1)%Z, Sample.offline).
Proof.
  exact (@prenegQuery_without_udp Sample.codec "cq" Sample.offline Sample.server
           eq_refl).
Defined.


(** * Further properties of the lifecycle *)
Section LifecycleMore.

Import Les LesRun.


Lemma existsb_logs :
  forall f lvl lines, skips_logs f -> existsb f (map (Log lvl) lines) = false.
Proof.
  intros f lvl lines Hf. induction lines as [|l lines IH]; [reflexivity|].
  cbn. rewrite Hf. exact IH.
Qed.

Lemma created_past_logs :
  forall lvl lines rest, created (map (Log lvl) lines ++ rest) = created rest.
Proof.
  intros lvl lines rest. induction lines as [|l lines IH]; [reflexivity|].
  exact IH.
Qed.


Lemma started_past_logs :
  forall lvl lines rest, started (map (Log lvl) lines ++ rest) = started rest.
Proof.
  intros lvl lines rest. induction lines as [|l lines IH]; [reflexivity|].
  exact IH.
Qed.

Local Ltac success_case HNew :=
  unfold New in HNew;
  destruct (chainDbErr _) eqn:?; [discriminate HNew|];
  destruct (lesDbErr _) eqn:?; [discriminate HNew|];
  destruct (genesisErr _) eqn:?; try discriminate HNew;
  (destruct (lightChainErr _) eqn:?; [discriminate HNew|]);
  destruct (ulc _) eqn:?;
  cbv zeta in HNew; rewrite <- !app_assoc in HNew;
  injection HNew as HNew _; subst; cbn [app].


(** X8. On success [New] has created every part it created exactly once.
    [Stop] halts only parts [New] created - and the event mux, which
    belongs to the node - and leaves seven created parts to others: the
    merger, the retriever, the Bloom-Trie indexer, the checkpoint oracle,
    the API backend, the gas price oracle and the net service.  The
    indexers [New] starts, the CHT and the bloom indexer, are both halted
    by [Stop]. *)
Theorem New_and_Stop_match :
  forall w t s,
  New w = (t, inl s) ->
  NoDup (created t) /\
  ~ In part.eventMux (created t) /\
  (forall p, In p (halted Stop) -> p = part.eventMux \/ In p (created t)) /\
  (forall p, In p (created t) ->
     (In p (halted Stop) <->
      ~ In p [part.merger; part.retriever; part.bloomTrieIndexer; part.oracle;
              part.ApiBackend; part.gpo; part.netRPCService])) /\
  started t = [part.chtIndexer; part.bloomIndexer] /\
  (forall p, In p (started t) -> In p (halted Stop)).
Proof.
  intros w t s HNew.
  assert (Hcreated : created t =
            [part.chainDb; part.lesDb; part.peers; part.merger; part.reqDist;
             part.engine; part.bloomIndexer; part.shutdownTracker;
             part.serverPool; part.retriever; part.relay; part.odr;
             part.chtIndexer; part.bloomTrieIndexer; part.blockchain;
             part.txPool; part.oracle; part.pruner; part.ApiBackend; part.gpo;
             part.handler; part.netRPCService]).
  { success_case HNew; cbn [created creates String.eqb Ascii.eqb Bool.eqb];
      rewrite created_past_logs; reflexivity. }
  assert (Hstarted : started t = [part.chtIndexer; part.bloomIndexer]).
  { success_case HNew; cbn [started];
      rewrite started_past_logs; reflexivity. }
  rewrite Hcreated, Hstarted. clear.
  split; [repeat (constructor; [cbn; intuition discriminate|]); constructor|].
  split; [cbn; intuition discriminate|].
  split.
  { intros p Hp. cbn in Hp.
    repeat (destruct Hp as [<-|Hp]; [cbn; auto 30|]). contradiction. }
  split.
  { intros p Hp. cbn in Hp.
    repeat (destruct Hp as [<-|Hp];
            [cbn; split; [intuition discriminate | intros H; auto 30;
                          exfalso; apply H; auto 10]|]).
    contradiction. }
  split; [reflexivity|].
  intros p Hp. cbn in Hp.
  repeat (destruct Hp as [<-|Hp]; [cbn; auto 30|]). contradiction.
Qed.


(** X10. [Start] returns an error exactly when [setupDiscovery] fails.  In
    that case the server pool, the bloom handlers and the protocol handler
    have not been started, but the shutdown tracker has, and the switch of
    the UDP path has been made.  Without error everything is started,
    the pool after its discovery source is added and the handler last.
    In both cases the client left is ready for queries, [Start] never
    turns the UDP path on, a second [Start] would leave the client as it
    is, and the error about discovery v5 is logged exactly when the UDP
    path was switched off. *)
Theorem Start_run_outcome :
  forall discoveryErr s t s' err,
  Start_run discoveryErr s = (t, s', err) ->
  err = discoveryErr s' /\
  Reading.ready s' /\
  (udpEnabled s' = true -> udpEnabled s = true) /\
  Start s' = s' /\
  p2pServer s' = p2pServer s /\ serverPool s' = serverPool s /\
  (existsb (start_call_eqb (SLog LvlError "Discovery v5 is not initialized")) t
     = true <-> udpEnabled s = true /\ udpEnabled s' = false) /\
  nth_error t 1 = Some TrackerStart /\
  (err = true ->
   existsb (start_call_eqb PoolStart) t = false /\
   existsb (start_call_eqb StartBloomHandlers) t = false /\
   existsb (start_call_eqb HandlerStart) t = false) /\
  (err = false ->
   exists pre,
     t = pre ++ [SetupDiscovery; AddSource; PoolStart; WgAdd;
                 StartBloomHandlers; HandlerStart]).
Proof.
  intros derr s t s' err. unfold Start_run, Start, Reading.ready.
  destruct s as [u [d] pool]. cbn [udpEnabled p2pServer DiscV5 serverPool].
  destruct u, d as [d|]; cbn [andb negb not_nil with_udpEnabled udpEnabled
                                p2pServer DiscV5 serverPool];
    match goal with
    | |- context [derr ?x] => destruct (derr x) eqn:Hd
    end;
    intros H; injection H as <- <- <-;
    cbn [udpEnabled p2pServer DiscV5 serverPool andb negb not_nil];
    rewrite ?Hd;
    (split; [reflexivity|]);
    (split; [intros; discriminate|]);
    (split; [auto|]);
    (split; [reflexivity|]);
    (split; [reflexivity|]);
    (split; [reflexivity|]);
    (split; [cbn; intuition (try discriminate; try reflexivity)|]);
    (split; [reflexivity|]);
    (split; [intros; try discriminate; cbn; auto|]);
    intros; try discriminate;
    first [ exists [SLog LvlWarn "Light client mode is an experimental feature";
                    TrackerStart]; reflexivity
          | exists [SLog LvlWarn "Light client mode is an experimental feature";
                    TrackerStart;
                    SLog LvlError "Discovery v5 is not initialized"];
            reflexivity ].
Qed.

End LifecycleMore.

(** * Further properties of the mobile node constructor *)
Section NewNodeMore.

Import Gcofe GcofeRun.

Variable FoundationBootnodes : Enodes.
Variables RopstenGenesis SepoliaGenesis RinkebyGenesis GoerliGenesis : string.
Variables clientIdentifier VersionWithMeta : string.
Variable Join : string -> string -> string.
Variable host : Host.

Local Abbreviation withDefaults := (withDefaults FoundationBootnodes).
Local Abbreviation given := (given FoundationBootnodes).
Local Abbreviation nodeConf := (nodeConf clientIdentifier VersionWithMeta Join).
Local Abbreviation testnets :=
  (testnets RopstenGenesis SepoliaGenesis RinkebyGenesis GoerliGenesis).
Local Abbreviation NewNode :=
  (NewNode FoundationBootnodes RopstenGenesis SepoliaGenesis RinkebyGenesis
     GoerliGenesis clientIdentifier VersionWithMeta Join host).

(** The configuration after the defaults: only [MaxPeers] and
    [BootstrapNodes] can differ from the given one. *)
Lemma withDefaults_fields :
  forall config,
  exists c0 boot,
    withDefaults config = Done c0 /\
    BootstrapNodes c0 = addr boot /\
    nodes boot = wanted_bootnodes FoundationBootnodes (given config) /\
    c0 = set_BootstrapNodes
           (set_MaxPeers (given config)
              (if (MaxPeers (given config) =? 0)%Z then 25%Z
               else MaxPeers (given config)))
           (addr boot).
Proof.
  intros config. unfold Gcofe.withDefaults, wanted_bootnodes.
  destruct (given config) as [b mp en id gen cache stats pprof].
  cbn [MaxPeers BootstrapNodes].
  destruct (mp =? 0)%Z eqn:Hmp; cbn [set_MaxPeers BootstrapNodes MaxPeers];
    (destruct b as [b|]; cbn; [destruct (Size b =? 0)%Z eqn:Hsz; cbn|]);
    eexists; eexists; (split; [reflexivity|]); cbn;
    repeat split; try reflexivity.
  all: apply Z.eqb_eq in Hmp; subst mp; reflexivity.
Qed.

Lemma hardcode_pair :
  forall spec cc id g c,
  hardcode spec cc id (g, c) =
  (if String.eqb (ConferoGenesis c) spec then set_Config g cc else g,
   if String.eqb (ConferoGenesis c) spec && (ConferoNetworkID c =? 1)%Z
   then set_ConferoNetworkID c id else c).
Proof.
  intros spec cc id g c. unfold hardcode.
  destruct (String.eqb (ConferoGenesis c) spec); [|reflexivity].
  destruct (ConferoNetworkID c =? 1)%Z; reflexivity.
Qed.

Local Ltac by_testnet_cases HR HS HK HG Hid :=
  repeat (progress (cbn; rewrite ?HR, ?HS, ?HK, ?HG, ?Hid)); reflexivity.

(** The configuration after the four testnet blocks: at most the network
    identifier has changed, and the first matching block decides it. *)
Lemma testnets_config :
  forall g c,
  snd (testnets (g, c)) =
  if (ConferoNetworkID c =? 1)%Z then
    if String.eqb (ConferoGenesis c) RopstenGenesis
    then set_ConferoNetworkID c 3
    else if String.eqb (ConferoGenesis c) SepoliaGenesis
    then set_ConferoNetworkID c 11155111
    else if String.eqb (ConferoGenesis c) RinkebyGenesis
    then set_ConferoNetworkID c 4
    else if String.eqb (ConferoGenesis c) GoerliGenesis
    then set_ConferoNetworkID c 5
    else c
  else c.
Proof.
  intros g c. unfold Gcofe.testnets. cbv zeta. rewrite !hardcode_pair.
  destruct (ConferoNetworkID c =? 1)%Z eqn:Hid;
    destruct (String.eqb (ConferoGenesis c) RopstenGenesis) eqn:HR;
    destruct (String.eqb (ConferoGenesis c) SepoliaGenesis) eqn:HS;
    destruct (String.eqb (ConferoGenesis c) RinkebyGenesis) eqn:HK;
    destruct (String.eqb (ConferoGenesis c) GoerliGenesis) eqn:HG;
    by_testnet_cases HR HS HK HG Hid.
Qed.

(** The genesis after the four testnet blocks: the last matching block
    decides the chain configuration, the rest of the block is kept. *)
Lemma testnets_genesis :
  forall g c,
  fst (testnets (g, c)) =
  if String.eqb (ConferoGenesis c) GoerliGenesis
  then set_Config g GoerliChainConfig
  else if String.eqb (ConferoGenesis c) RinkebyGenesis
  then set_Config g RinkebyChainConfig
  else if String.eqb (ConferoGenesis c) SepoliaGenesis
  then set_Config g SepoliaChainConfig
  else if String.eqb (ConferoGenesis c) RopstenGenesis
  then set_Config g RopstenChainConfig
  else g.
Proof.
  intros g c. unfold Gcofe.testnets. cbv zeta. rewrite !hardcode_pair.
  destruct (ConferoNetworkID c =? 1)%Z eqn:Hid;
    destruct (String.eqb (ConferoGenesis c) RopstenGenesis) eqn:HR;
    destruct (String.eqb (ConferoGenesis c) SepoliaGenesis) eqn:HS;
    destruct (String.eqb (ConferoGenesis c) RinkebyGenesis) eqn:HK;
    destruct (String.eqb (ConferoGenesis c) GoerliGenesis) eqn:HG;
    by_testnet_cases HR HS HK HG Hid.
Qed.

(** [NewNode] with the defaults resolved. *)
Lemma NewNode_proceed :
  forall datadir config c0 boot,
  withDefaults config = Done c0 ->
  BootstrapNodes c0 = addr boot ->
  let nc := nodeConf datadir c0 boot in
  let pp := if negb (String.eqb (PprofAddress c0) "")
            then [StartPProf (PprofAddress c0)] else [] in
  NewNode datadir config =
  Done (if nodeErr host nc
        then mkOutcome c0 (pp ++ [node_New nc]) (inr ErrNode)
        else if negb (String.eqb (ConferoGenesis c0) "") then
          match Unmarshal host (ConferoGenesis c0) with
          | None => mkOutcome c0 ((pp ++ [node_New nc]) ++ [Memsize_Add])
                      (inr ErrInvalidGenesis)
          | Some g => register host nc ((pp ++ [node_New nc]) ++ [Memsize_Add])
                        (addr (fst (testnets (g, c0)))) (snd (testnets (g, c0)))
          end
        else register host nc ((pp ++ [node_New nc]) ++ [Memsize_Add]) nil c0).
Proof.
  intros datadir config c0 boot Hwd Hboot nc pp.
  unfold Gcofe.NewNode. rewrite Hwd. cbn [bind]. rewrite Hboot.
  cbn [deref addr bind]. cbv zeta. fold nc. fold pp.
  destruct (nodeErr host nc); [reflexivity|].
  destruct (negb (String.eqb (ConferoGenesis c0) "")); [|reflexivity].
  destruct (Unmarshal host (ConferoGenesis c0)); reflexivity.
Qed.

(** The registration block, call by call. *)
Lemma register_shape :
  forall nc t g c,
  let o := register host nc t g c in
  let start := Les.New (lesStartup host nc (ethConf g c)) in
  config' o = c /\
  calls o =
    t ++ (if ConferoEnabled c then
            les_New (ethConf g c) (fst start) ::
            match snd start with
            | inl _ => if negb (String.eqb (ConferoNetStats c) "")
                       then [ethstats_New (ConferoNetStats c)] else []
            | inr _ => []
            end
          else []) /\
  result o =
    (if ConferoEnabled c then
       match snd start with
       | inl _ => if negb (String.eqb (ConferoNetStats c) "")
                     && netstatsErr host (ConferoNetStats c)
                  then inr ErrNetstatsInit else inl (mkNode nc)
       | inr e => inr (ErrConferoInit e)
       end
     else inl (mkNode nc)).
Proof.
  intros nc t g c. cbv zeta. unfold register.
  destruct (ConferoEnabled c); [|cbn; rewrite app_nil_r; auto].
  cbv zeta. destruct (Les.New _) as [made [backend|e]]; cbn [fst snd].
  - destruct (negb (String.eqb (ConferoNetStats c) "")); cbn [andb].
    + destruct (netstatsErr host (ConferoNetStats c)); cbn;
        rewrite <- app_assoc; auto.
    + cbn. auto.
  - cbn. auto.
Qed.

(** Every run of [NewNode], described through the configuration after the
    defaults. *)
Lemma NewNode_run :
  forall datadir config o,
  NewNode datadir config = Done o ->
  exists c0 boot,
    withDefaults config = Done c0 /\
    BootstrapNodes c0 = addr boot /\
    nodes boot = wanted_bootnodes FoundationBootnodes (given config) /\
    c0 = set_BootstrapNodes
           (set_MaxPeers (given config)
              (if (MaxPeers (given config) =? 0)%Z then 25%Z
               else MaxPeers (given config)))
           (addr boot) /\
    o = (let nc := nodeConf datadir c0 boot in
         let pp := if negb (String.eqb (PprofAddress c0) "")
                   then [StartPProf (PprofAddress c0)] else [] in
         if nodeErr host nc
         then mkOutcome c0 (pp ++ [node_New nc]) (inr ErrNode)
         else if negb (String.eqb (ConferoGenesis c0) "") then
           match Unmarshal host (ConferoGenesis c0) with
           | None => mkOutcome c0 ((pp ++ [node_New nc]) ++ [Memsize_Add])
                       (inr ErrInvalidGenesis)
           | Some g =>
               register host nc ((pp ++ [node_New nc]) ++ [Memsize_Add])
                 (addr (fst (testnets (g, c0)))) (snd (testnets (g, c0)))
           end
         else register host nc ((pp ++ [node_New nc]) ++ [Memsize_Add]) nil c0).
Proof.
  intros datadir config o HN.
  destruct (withDefaults_fields config) as [c0 [boot [Hwd [Hb [Hn Hc]]]]].
  exists c0, boot. split; [exact Hwd|]. split; [exact Hb|].
  split; [exact Hn|]. split; [exact Hc|].
  rewrite (NewNode_proceed datadir config Hwd Hb) in HN.
  injection HN as <-. reflexivity.
Qed.

(** X11. The stack [NewNode] creates is bootstrapped from the nodes of the
    configuration when it has any, else from the foundation nodes - also
    when the list is present but empty; it keeps v4 discovery off and v5
    discovery on, lives in the given data directory and takes its peer
    limit from the configuration unless that is 0. *)
Theorem NewNode_stack_configuration :
  forall datadir config o conf,
  NewNode datadir config = Done o ->
  In (node_New conf) (calls o) ->
  BootstrapNodesV5 (P2P conf)
    = wanted_bootnodes FoundationBootnodes (given config) /\
  NoDiscovery (P2P conf) = true /\ DiscoveryV5 (P2P conf) = true /\
  DataDir conf = datadir /\
  KeyStoreDir conf = Join datadir "keystore" /\
  P2P_MaxPeers (P2P conf)
    = (if (MaxPeers (given config) =? 0)%Z then 25%Z
       else MaxPeers (given config)).
Proof.
  intros datadir config o conf HN Hin.
  destruct (NewNode_outcome FoundationBootnodes RopstenGenesis SepoliaGenesis
              RinkebyGenesis GoerliGenesis clientIdentifier VersionWithMeta
              Join host datadir config)
    as [o' [c0 [boot [Hwd [Hb [HN' [Hconf _]]]]]]].
  rewrite HN in HN'. injection HN' as <-.
  apply Hconf in Hin. subst conf.
  destruct (withDefaults_fields config) as [c1 [boot1 [Hwd1 [Hb1 [Hn Hc]]]]].
  rewrite Hwd in Hwd1. injection Hwd1 as <-.
  rewrite Hb in Hb1. injection Hb1 as <-.
  cbn [Gcofe.nodeConf P2P BootstrapNodesV5 NoDiscovery DiscoveryV5 DataDir
       KeyStoreDir P2P_MaxPeers].
  rewrite Hc at 1. cbn [MaxPeers set_BootstrapNodes set_MaxPeers].
  auto 10.
Qed.

Local Ltac run_cases o c0 nc pp :=
  subst o; cbv zeta;
  set (nc := nodeConf _ c0 _);
  set (pp := if negb (String.eqb (PprofAddress c0) "") then _ else _);
  assert (Hpp : forall f, (forall a, f (StartPProf a) = false) ->
                          existsb f pp = false)
    by (intros f Hf; unfold pp; destruct (negb _); cbn; rewrite ?Hf; reflexivity).


Lemma testnets_fields :
  forall g c,
  BootstrapNodes (snd (testnets (g, c))) = BootstrapNodes c /\
  MaxPeers (snd (testnets (g, c))) = MaxPeers c /\
  ConferoEnabled (snd (testnets (g, c))) = ConferoEnabled c /\
  ConferoGenesis (snd (testnets (g, c))) = ConferoGenesis c /\
  ConferoDatabaseCache (snd (testnets (g, c))) = ConferoDatabaseCache c /\
  ConferoNetStats (snd (testnets (g, c))) = ConferoNetStats c /\
  PprofAddress (snd (testnets (g, c))) = PprofAddress c.
Proof.
  intros g c. rewrite testnets_config.
  destruct (ConferoNetworkID c =? 1)%Z; [|auto 10].
  repeat match goal with
         | |- context [if ?b then _ else _] => destruct b
         end; auto 10.
Qed.

(** The light client is created at most once, with the configuration
    [NewNode] leaves to the caller. *)
Lemma les_New_inv :
  forall datadir config o ec made,
  NewNode datadir config = Done o ->
  In (les_New ec made) (calls o) ->
  exists g conf,
    ec = ethConf g (config' o) /\
    In (node_New conf) (calls o) /\
    made = fst (Les.New (lesStartup host conf ec)) /\
    ConferoEnabled (given config) = true /\
    ConferoDatabaseCache (config' o) = ConferoDatabaseCache (given config) /\
    (g = nil <-> ConferoGenesis (given config) = ""%string) /\
    (forall g0, Unmarshal host (ConferoGenesis (given config)) = Some g0 ->
                g <> nil ->
                g = addr (fst (testnets (g0, config' o)))).
Proof.
  intros datadir config o ec made HN Hin.
  destruct (NewNode_run _ _ HN) as [c0 [boot [_ [_ [_ [Hc Ho]]]]]].
  assert (Hg : ConferoGenesis c0 = ConferoGenesis (given config))
    by (rewrite Hc; reflexivity).
  assert (He : ConferoEnabled c0 = ConferoEnabled (given config))
    by (rewrite Hc; reflexivity).
  assert (Hd : ConferoDatabaseCache c0 = ConferoDatabaseCache (given config))
    by (rewrite Hc; reflexivity).
  rewrite <- Hg, <- He, <- Hd. clear Hg He Hd Hc.
  revert Hin. run_cases o c0 nc pp.
  assert (Hno : ~ In (les_New ec made) pp).
  { unfold pp. destruct (negb _); cbn; intuition discriminate. }
  assert (Hreg : forall g c,
            In (les_New ec made)
               (calls (register host nc ((pp ++ [node_New nc]) ++ [Memsize_Add]) g c)) ->
            ec = ethConf g c /\
            In (node_New nc)
               (calls (register host nc ((pp ++ [node_New nc]) ++ [Memsize_Add]) g c)) /\
            made = fst (Les.New (lesStartup host nc ec)) /\
            ConferoEnabled c = true /\
            config' (register host nc ((pp ++ [node_New nc]) ++ [Memsize_Add]) g c) = c).
  { intros g c.
    destruct (register_shape nc ((pp ++ [node_New nc]) ++ [Memsize_Add]) g c)
      as [Hcfg [Hcalls _]].
    rewrite Hcalls, Hcfg. rewrite !in_app_iff. cbn [In].
    intros [[[H|[H|[]]]|[H|[]]]|H]; try contradiction; try discriminate H.
    revert H. destruct (ConferoEnabled c); [|cbn; tauto].
    cbn [In]. intros [H|H].
    - injection H as <- <-. repeat split; auto.
    - exfalso. revert H. destruct (snd (Les.New _)); [|cbn; tauto].
      destruct (negb (String.eqb (ConferoNetStats c) "")); cbn;
        intuition discriminate. }
  destruct (nodeErr host nc).
  { cbn [calls]. rewrite in_app_iff. cbn.
    intros [H|[H|[]]]; [contradiction | discriminate H]. }
  destruct (String.eqb (ConferoGenesis c0) "") eqn:Hgen; cbn [negb].
  - apply String.eqb_eq in Hgen. intros Hin.
    destruct (Hreg _ _ Hin) as [H1 [H2 [H3 [H4 H5]]]].
    exists (@nil Genesis), nc. rewrite H5.
    repeat split; auto. intros g0 _ Hne. contradiction.
  - apply String.eqb_neq in Hgen.
    destruct (Unmarshal host (ConferoGenesis c0)) as [g|] eqn:Hum.
    + intros Hin. destruct (Hreg _ _ Hin) as [H1 [H2 [H3 [H4 H5]]]].
      destruct (testnets_fields g c0) as [_ [_ [Hen [Hgs [Hdb _]]]]].
      exists (addr (fst (testnets (g, c0)))), nc. rewrite H5.
      split; [exact H1|]. split; [exact H2|]. split; [exact H3|].
      split; [rewrite <- Hen; exact H4|]. split; [exact Hdb|].
      split; [split; [discriminate | intros H; contradiction]|].
      intros g0 Hg0 _. injection Hg0 as <-.
      f_equal. rewrite !testnets_genesis, Hgs. reflexivity.
    + cbn [calls]. rewrite !in_app_iff. cbn.
      intros [[H|[H|[]]]|[H|[]]]; try contradiction; discriminate H.
Qed.

(** X13. The network identifier handed to the light client is the
    configured [int64] read as [uint64]: always below 2^64, the same number
    when the configured one is not negative, and 2^64 more when it is.
    The client is always created in light sync mode and with the
    configured database cache. *)
Theorem NewNode_network_id_conversion :
  forall datadir config o ec made,
  NewNode datadir config = Done o ->
  In (les_New ec made) (calls o) ->
  is_int64 (ConferoNetworkID (config' o)) ->
  (0 <= NetworkId ec < 2 ^ 64)%Z /\
  ((0 <= ConferoNetworkID (config' o))%Z ->
   NetworkId ec = ConferoNetworkID (config' o)) /\
  ((ConferoNetworkID (config' o) < 0)%Z ->
   NetworkId ec = (ConferoNetworkID (config' o) + 2 ^ 64)%Z) /\
  eth_SyncMode ec = LightSync /\
  DatabaseCache ec = ConferoDatabaseCache (given config).
Proof.
  intros datadir config o ec made HN Hin [Hlo Hhi].
  destruct (les_New_inv _ _ _ _ HN Hin) as [g [conf [-> [_ [_ [_ [Hdb _]]]]]]].
  cbn [Gcofe.ethConf NetworkId eth_SyncMode DatabaseCache].
  unfold uint64_of_int64.
  split; [apply Z.mod_pos_bound; lia|].
  split; [intros H0; apply Z.mod_small; lia|].
  split; [|split; [reflexivity | exact Hdb]].
  intros Hneg.
  rewrite <- (Z.mod_add _ 1 (2 ^ 64)) by lia.
  rewrite Z.mul_1_l. apply Z.mod_small. lia.
Qed.

(** X14. When a genesis is given and parsed, the light client gets that
    genesis with the chain configuration of the testnet whose spec the
    genesis string equals - whatever the network identifier - and
    unchanged when it equals none of the four.  Where the string equals
    several specs, the last block of the source decides. *)
Theorem NewNode_hardcodes_chain_config :
  forall datadir config o ec made g0,
  NewNode datadir config = Done o ->
  In (les_New ec made) (calls o) ->
  ConferoGenesis (given config) <> ""%string ->
  Unmarshal host (ConferoGenesis (given config)) = Some g0 ->
  exists g,
    eth_Genesis ec = addr g /\ block g = block g0 /\
    (ConferoGenesis (given config) = GoerliGenesis ->
     Config g = addr GoerliChainConfig) /\
    (ConferoGenesis (given config) = RinkebyGenesis ->
     RinkebyGenesis <> GoerliGenesis ->
     Config g = addr RinkebyChainConfig) /\
    (ConferoGenesis (given config) = SepoliaGenesis ->
     SepoliaGenesis <> GoerliGenesis -> SepoliaGenesis <> RinkebyGenesis ->
     Config g = addr SepoliaChainConfig) /\
    (ConferoGenesis (given config) = RopstenGenesis ->
     RopstenGenesis <> GoerliGenesis -> RopstenGenesis <> RinkebyGenesis ->
     RopstenGenesis <> SepoliaGenesis ->
     Config g = addr RopstenChainConfig) /\
    (ConferoGenesis (given config) <> GoerliGenesis ->
     ConferoGenesis (given config) <> RinkebyGenesis ->
     ConferoGenesis (given config) <> SepoliaGenesis ->
     ConferoGenesis (given config) <> RopstenGenesis ->
     g = g0).
Proof.
  intros datadir config o ec made g0 HN Hin Hne Hum.
  destruct (les_New_inv _ _ _ _ HN Hin)
    as [g [conf [-> [_ [_ [_ [_ [Hnil Hsome]]]]]]]].
  assert (Hg : g = addr (fst (testnets (g0, config' o)))).
  { apply (Hsome g0 Hum). intros H. apply Hnil in H. contradiction. }
  subst g. eexists. split; [reflexivity|].
  assert (Hgen : ConferoGenesis (config' o) = ConferoGenesis (given config)).
  { destruct (NewNode_outcome FoundationBootnodes RopstenGenesis SepoliaGenesis
                RinkebyGenesis GoerliGenesis clientIdentifier VersionWithMeta
                Join host datadir config)
      as [o' [c0 [boot [Hwd [_ [HN' [_ [_ [Hcfg _]]]]]]]]].
    rewrite HN in HN'. injection HN' as <-.
    destruct (withDefaults_fields config) as [c1 [b1 [Hwd1 [_ [_ Hc1]]]]].
    rewrite Hwd in Hwd1. injection Hwd1 as <-.
    destruct Hcfg as [->|[g ->]].
    - rewrite Hc1. reflexivity.
    - destruct (testnets_fields g c0) as [_ [_ [_ [H _]]]].
      rewrite H, Hc1. reflexivity. }
  rewrite testnets_genesis, Hgen.
  split.
  { repeat match goal with
           | |- context [if ?b then _ else _] => destruct b
           end; reflexivity. }
  split.
  { intros ->. rewrite String.eqb_refl. reflexivity. }
  split.
  { intros -> H1. apply String.eqb_neq in H1.
    rewrite H1, String.eqb_refl. reflexivity. }
  split.
  { intros -> H1 H2. apply String.eqb_neq in H1, H2.
    rewrite H1, H2, String.eqb_refl. reflexivity. }
  split.
  { intros -> H1 H2 H3. apply String.eqb_neq in H1, H2, H3.
    rewrite H1, H2, H3, String.eqb_refl. reflexivity. }
  intros H1 H2 H3 H4. apply String.eqb_neq in H1, H2, H3, H4.
  rewrite H1, H2, H3, H4. reflexivity.
Qed.

Lemma Enodes_eta : forall a b : Enodes, nodes a = nodes b -> a = b.
Proof. intros [a] [b] H. cbn in H. subst. reflexivity. Qed.

Lemma existsb_calls_register :
  forall f nc t g c,
  existsb f (calls (register host nc t g c)) =
  existsb f t
  || (ConferoEnabled c
      && (f (les_New (ethConf g c)
               (fst (Les.New (lesStartup host nc (ethConf g c)))))
          || match snd (Les.New (lesStartup host nc (ethConf g c))) with
             | inl _ => negb (String.eqb (ConferoNetStats c) "")
                        && f (ethstats_New (ConferoNetStats c))
             | inr _ => false
             end)).
Proof.
  intros f nc t g c.
  destruct (register_shape nc t g c) as [_ [Hcalls _]]. rewrite Hcalls.
  rewrite existsb_app.
  destruct (ConferoEnabled c); [|cbn; reflexivity].
  cbn [existsb andb]. f_equal. f_equal.
  destruct (snd (Les.New _)); [|reflexivity].
  destruct (negb (String.eqb (ConferoNetStats c) "")); cbn;
    rewrite ?orb_false_r; reflexivity.
Qed.

(** X15. With the Confero protocol switched off, [NewNode] creates no
    light client and no statistics service - a statistics address in the
    configuration is ignored - and can only fail on the stack or on the
    genesis, which is still parsed. *)
Theorem NewNode_without_confero :
  forall datadir config o,
  NewNode datadir config = Done o ->
  ConferoEnabled (given config) = false ->
  existsb is_les_New (calls o) = false /\
  existsb is_ethstats_New (calls o) = false /\
  (forall e, result o = inr e -> e = ErrNode \/ e = ErrInvalidGenesis) /\
  (forall conf,
     In (node_New conf) (calls o) ->
     nodeErr host conf = false ->
     ConferoGenesis (given config) <> ""%string ->
     Unmarshal host (ConferoGenesis (given config)) = None ->
     result o = inr ErrInvalidGenesis).
Proof.
  intros datadir config o HN Hoff.
  destruct (NewNode_outcome FoundationBootnodes RopstenGenesis SepoliaGenesis
              RinkebyGenesis GoerliGenesis clientIdentifier VersionWithMeta
              Join host datadir config)
    as [o' [c1 [b1 [Hwd [Hb1 [HN' [Hconf _]]]]]]].
  rewrite HN in HN'. injection HN' as <-.
  destruct (NewNode_run _ _ HN) as [c0 [boot [Hwd0 [Hb0 [_ [Hc Ho]]]]]].
  assert (Hsame : c1 = c0 /\ b1 = boot).
  { rewrite Hwd in Hwd0. injection Hwd0 as <-.
    rewrite Hb1 in Hb0. injection Hb0 as <-. auto. }
  destruct Hsame as [-> ->].
  assert (Hg : ConferoGenesis c0 = ConferoGenesis (given config))
    by (rewrite Hc; reflexivity).
  assert (He : ConferoEnabled c0 = false) by (rewrite Hc; exact Hoff).
  rewrite <- Hg. clear Hg Hc Hwd Hb1.
  revert Hconf. run_cases o c0 nc pp. intros Hconf.
  assert (Hreg : forall g c, ConferoEnabled c = false ->
            register host nc ((pp ++ [node_New nc]) ++ [Memsize_Add]) g c =
            mkOutcome c ((pp ++ [node_New nc]) ++ [Memsize_Add])
              (inl (mkNode nc))).
  { intros g c H. unfold register. rewrite H. reflexivity. }
  destruct (nodeErr host nc) eqn:Hnode.
  { cbn [calls result]. rewrite !existsb_app, !(Hpp _ (fun _ => eq_refl)).
    repeat split; try reflexivity.
    - intros e H. injection H as <-. auto.
    - intros conf Hin Hn. revert Hconf. cbn [calls]. intros Hconf.
      apply Hconf in Hin. subst conf. fold nc in Hn. congruence. }
  destruct (String.eqb (ConferoGenesis c0) "") eqn:Hgen; cbn [negb].
  - rewrite (Hreg _ _ He). cbn [calls result].
    rewrite !existsb_app, !(Hpp _ (fun _ => eq_refl)).
    apply String.eqb_eq in Hgen.
    repeat split; try reflexivity; try discriminate.
    intros conf _ _ H. contradiction.
  - destruct (Unmarshal host (ConferoGenesis c0)) as [g|] eqn:Hum.
    + destruct (testnets_fields g c0) as [_ [_ [Hen _]]].
      rewrite (Hreg _ _ (eq_trans Hen He)). cbn [calls result].
      rewrite !existsb_app, !(Hpp _ (fun _ => eq_refl)).
      repeat split; try reflexivity; try discriminate.
    + cbn [calls result]. rewrite !existsb_app, !(Hpp _ (fun _ => eq_refl)).
      repeat split; try reflexivity.
      intros e H. injection H as <-. auto.
Qed.

(** X16. Called without a configuration, [NewNode] works on a fresh copy
    of the defaults: peer limit 25, the foundation bootstrap nodes, no
    profiling server and no statistics service, and a light client for
    network 1 with no genesis (mainnet) and 16 MB of database cache.  It
    can fail only on the stack or on the light client. *)
Theorem NewNode_nil_config :
  forall datadir o,
  NewNode datadir nil = Done o ->
  config' o = defaultNodeConfig FoundationBootnodes /\
  existsb is_StartPProf (calls o) = false /\
  existsb is_ethstats_New (calls o) = false /\
  (forall e, result o = inr e -> e = ErrNode \/ exists e', e = ErrConferoInit e') /\
  (forall ec made,
     In (les_New ec made) (calls o) ->
     ec = {| eth_Genesis := nil; eth_SyncMode := LightSync;
             NetworkId := 1; DatabaseCache := 16 |}) /\
  (forall conf,
     In (node_New conf) (calls o) ->
     P2P_MaxPeers (P2P conf) = 25%Z /\
     BootstrapNodesV5 (P2P conf) = nodes FoundationBootnodes /\
     (nodeErr host conf = false -> existsb is_les_New (calls o) = true)).
Proof.
  intros datadir o HN.
  destruct (NewNode_outcome FoundationBootnodes RopstenGenesis SepoliaGenesis
              RinkebyGenesis GoerliGenesis clientIdentifier VersionWithMeta
              Join host datadir nil)
    as [o' [c1 [b1 [Hwd [Hb1 [HN' [Hconf _]]]]]]].
  rewrite HN in HN'. injection HN' as <-.
  destruct (NewNode_run _ _ HN) as [c0 [boot [Hwd0 [Hb0 [Hn [Hc Ho]]]]]].
  assert (Hboot : boot = FoundationBootnodes).
  { apply Enodes_eta. rewrite Hn. unfold wanted_bootnodes. cbn.
    destruct (Size FoundationBootnodes =? 0)%Z; reflexivity. }
  subst boot.
  assert (Hdef : c0 = defaultNodeConfig FoundationBootnodes)
    by (rewrite Hc; reflexivity).
  assert (Hc1 : c1 = c0 /\ b1 = FoundationBootnodes).
  { rewrite Hwd in Hwd0. injection Hwd0 as <-.
    rewrite Hb1 in Hb0. injection Hb0 as <-. auto. }
  destruct Hc1 as [-> ->]. clear Hc Hn Hwd Hb1 Hwd0 Hb0.
  subst c0. revert Hconf. subst o. cbv zeta.
  cbn [PprofAddress ConferoGenesis defaultNodeConfig String.eqb negb app].
  set (nc := nodeConf datadir (defaultNodeConfig FoundationBootnodes)
               FoundationBootnodes).
  intros Hconf.
  assert (Hnc : forall conf,
            conf = nc ->
            P2P_MaxPeers (P2P conf) = 25%Z /\
            BootstrapNodesV5 (P2P conf) = nodes FoundationBootnodes).
  { intros conf ->. split; reflexivity. }
  destruct (nodeErr host nc) eqn:Hnode.
  { revert Hconf. cbn [calls result config' existsb is_StartPProf
                       is_ethstats_New orb].
    intros Hconf. repeat split; try reflexivity.
    - intros e H. injection H as <-. auto.
    - intros ec made [H|[]]. discriminate H.
    - apply Hnc, Hconf; assumption.
    - apply Hnc, Hconf; assumption.
    - intros Hn. apply Hconf in H. subst conf. congruence. }
  destruct (register_shape nc [node_New nc; Memsize_Add] nil
              (defaultNodeConfig FoundationBootnodes)) as [Hcfg [Hcalls Hres]].
  revert Hcfg Hcalls Hres Hconf.
  cbn [ConferoEnabled ConferoNetStats defaultNodeConfig String.eqb negb andb].
  intros Hcfg Hcalls Hres Hconf.
  rewrite Hcfg, Hcalls, Hres.
  split; [reflexivity|].
  split; [destruct (snd (Les.New _)); reflexivity|].
  split; [destruct (snd (Les.New _)); reflexivity|].
  split.
  { destruct (snd (Les.New _)); intros e' H; [discriminate H|].
    injection H as <-. right. eexists; reflexivity. }
  split.
  { intros ec made Hin. cbn in Hin.
    destruct Hin as [H|[H|[H|Hin]]]; try discriminate H.
    - injection H as <- _. reflexivity.
    - destruct (snd (Les.New _)); contradiction. }
  intros conf Hin. rewrite Hcalls in Hconf. apply Hconf in Hin.
  destruct (Hnc conf Hin) as [H1 H2].
  split; [exact H1|]. split; [exact H2|]. intros _. reflexivity.
Qed.

(** X17. The configuration [NewNode] leaves to its caller is stable: a
    second call in the same data directory with that configuration leaves
    it as it is. *)
Theorem NewNode_config_stable :
  forall datadir c o1 o2,
  NewNode datadir (addr c) = Done o1 ->
  NewNode datadir (addr (config' o1)) = Done o2 ->
  config' o2 = config' o1.
Proof.
  intros datadir c o1 o2 H1 H2.
  destruct (NewNode_run _ _ H1) as [c0 [boot [_ [_ [Hn [Hc Ho1]]]]]].
  destruct (NewNode_run _ _ H2) as [c0' [boot' [_ [_ [Hn' [Hc' Ho2]]]]]].
  cbn [Gcofe.given addr] in Hn, Hc, Hn', Hc'.
  assert (Hmp : (MaxPeers c0 =? 0)%Z = false).
  { rewrite Hc. cbn. destruct (MaxPeers c =? 0)%Z eqn:E; [reflexivity | exact E]. }
  assert (Hfix : forall c1,
            BootstrapNodes c1 = addr boot -> MaxPeers c1 = MaxPeers c0 ->
            config' o1 = c1 -> c0' = c1 /\ boot' = boot).
  { intros c1 Hb Hm Hcfg. rewrite Hcfg in Hn', Hc'.
    assert (Hboot : boot' = boot).
    { apply Enodes_eta. rewrite Hn'. unfold wanted_bootnodes. rewrite Hb.
      unfold addr.
      destruct (Size boot =? 0)%Z eqn:Hsz; [|reflexivity].
      revert Hn. unfold wanted_bootnodes.
      destruct (BootstrapNodes c) as [b|]; [|intros Hn; symmetry; exact Hn].
      destruct (Size b =? 0)%Z eqn:Hb0; intros Hn; [symmetry; exact Hn|].
      exfalso. unfold Size in Hsz, Hb0.
      rewrite Hn in Hsz. congruence. }
    split; [|exact Hboot].
    rewrite Hc', Hboot, Hm, Hmp. clear - Hb Hm.
    destruct c1. cbn in Hb, Hm |- *. subst. reflexivity. }
  assert (Hb0 : BootstrapNodes c0 = addr boot) by (rewrite Hc; reflexivity).
  assert (Hreg : forall nc t g c1, config' (register host nc t g c1) = c1).
  { intros. destruct (register_shape nc t g c1) as [H _]. exact H. }
  cbv zeta in Ho1, Ho2.
  destruct (nodeErr host (nodeConf datadir c0 boot)) eqn:Hnode.
  { assert (Hcfg : config' o1 = c0) by (rewrite Ho1; reflexivity).
    destruct (Hfix c0 Hb0 eq_refl Hcfg) as [-> ->].
    rewrite Hnode in Ho2. rewrite Ho2, Hcfg. reflexivity. }
  destruct (negb (String.eqb (ConferoGenesis c0) "")) eqn:Hgen.
  - destruct (Unmarshal host (ConferoGenesis c0)) as [g|] eqn:Hum.
    + assert (Hcfg : config' o1 = snd (testnets (g, c0)))
        by (rewrite Ho1; apply Hreg).
      destruct (testnets_fields g c0) as [Hb [Hm [_ [Hg _]]]].
      destruct (Hfix (snd (testnets (g, c0)))) as [-> ->];
        [rewrite Hb; exact Hb0 | exact Hm | exact Hcfg |].
      assert (Hnc : nodeConf datadir (snd (testnets (g, c0))) boot
                    = nodeConf datadir c0 boot).
      { unfold Gcofe.nodeConf. rewrite Hm. reflexivity. }
      rewrite Hnc, Hnode, Hg, Hgen, Hum in Ho2.
      rewrite Ho2, Hcfg, Hreg. clear.
      rewrite !testnets_config.
      destruct (ConferoNetworkID c0 =? 1)%Z eqn:Hid; [|rewrite Hid; reflexivity].
      destruct (String.eqb (ConferoGenesis c0) RopstenGenesis) eqn:HR;
        [reflexivity|].
      destruct (String.eqb (ConferoGenesis c0) SepoliaGenesis) eqn:HS;
        [reflexivity|].
      destruct (String.eqb (ConferoGenesis c0) RinkebyGenesis) eqn:HK;
        [reflexivity|].
      destruct (String.eqb (ConferoGenesis c0) GoerliGenesis) eqn:HG;
        [reflexivity|].
      rewrite Hid, HR, HS, HK, HG. reflexivity.
    + assert (Hcfg : config' o1 = c0) by (rewrite Ho1; reflexivity).
      destruct (Hfix c0 Hb0 eq_refl Hcfg) as [-> ->].
      rewrite Hnode, Hgen, Hum in Ho2. rewrite Ho2, Hcfg. reflexivity.
  - assert (Hcfg : config' o1 = c0) by (rewrite Ho1; apply Hreg).
    destruct (Hfix c0 Hb0 eq_refl Hcfg) as [-> ->].
    rewrite Hnode, Hgen in Ho2. rewrite Ho2, Hcfg. apply Hreg.
Qed.

End NewNodeMore.

(** * The further statements on concrete runs *)

Lemma reset_then_get_zero_witness :
  exists m,
    TrezorOps.ConferoTxAck_Reset
      (addr (Trezor.ConferoTxAck.mk (Some [Byte.x01]))) = Done m /\
    Trezor.ConferoTxAck.GetDataChunk m = Done nil_slice.
Proof.
  pose proof (reset_then_get_zero unit) as H.
  rewrite Forall_forall in H.
  destruct (H (TrezorOps.Reader TrezorOps.ConferoTxAck_Reset
                 Trezor.ConferoTxAck.GetDataChunk nil_slice)) as [_ Hr].
  - cbn. tauto.
  - destruct (Hr (Trezor.ConferoTxAck.mk (Some [Byte.x01]))) as [m [H1 [_ H2]]].
    exists m. split; [exact H1 | exact H2].
Defined.


Lemma New_and_Stop_match_witness :
  LesRun.started (fst (Les.New Sample.startup))
    = [Les.part.chtIndexer; Les.part.bloomIndexer].
Proof.
  destruct (@New_and_Stop_match Sample.startup (fst (Les.New Sample.startup))
              (Sample.client nil_slice) eq_refl) as [_ [_ [_ [_ [H _]]]]].
  exact H.
Defined.


Lemma Start_run_outcome_witness :
  Reading.ready (Les.Start Sample2.unready) /\
  Les.udpEnabled (Les.Start Sample2.unready) = false.
Proof.
  destruct (@Start_run_outcome (fun _ => true) Sample2.unready
              (fst (fst (LesRun.Start_run (fun _ => true) Sample2.unready)))
              (Les.Start Sample2.unready) true eq_refl)
    as [_ [H1 [_ [_ [_ [_ [[H2 _] _]]]]]]].
  split; [exact H1|]. apply H2. reflexivity.
Defined.

Lemma NewNode_stack_configuration_witness :
  exists o conf,
    Sample.NewNode "/data" (addr Sample2.quiet_config) = Done o /\
    In (Gcofe.node_New conf) (Gcofe.calls o) /\
    Gcofe.BootstrapNodesV5 (Gcofe.P2P conf) = [1%N; 2%N] /\
    Gcofe.P2P_MaxPeers (Gcofe.P2P conf) = 50%Z.
Proof.
  eexists. eexists. split; [reflexivity|].
  assert (Hin : In (Gcofe.node_New
                      (Gcofe.nodeConf "Gcofe" "1.0"
                         (fun a b => (a ++ "/" ++ b)%string) "/data"
                         (Gcofe.set_BootstrapNodes Sample2.quiet_config
                            (addr Sample.bootnodes)) Sample.bootnodes))
                   [Gcofe.StartPProf "127.0.0.1:6060";
                    Gcofe.node_New
                      (Gcofe.nodeConf "Gcofe" "1.0"
                         (fun a b => (a ++ "/" ++ b)%string) "/data"
                         (Gcofe.set_BootstrapNodes Sample2.quiet_config
                            (addr Sample.bootnodes)) Sample.bootnodes);
                    Gcofe.Memsize_Add])
    by (right; left; reflexivity).
  split; [exact Hin|].
  destruct (@NewNode_stack_configuration Sample.bootnodes
              "ropsten" "sepolia" "rinkeby" "goerli" "Gcofe" "1.0"
              (fun a b => (a ++ "/" ++ b)%string) Sample.host
              "/data" (addr Sample2.quiet_config) _ _ eq_refl Hin)
    as [H1 [_ [_ [_ [_ H2]]]]].
  split; [exact H1 | exact H2].
Defined.


Lemma NewNode_network_id_conversion_witness :
  exists o ec made,
    Sample.NewNode "/data" (addr (Sample.config "" (-1))) = Done o /\
    In (Gcofe.les_New ec made) (Gcofe.calls o) /\
    Gcofe.NetworkId ec = 18446744073709551615%Z.
Proof.
  eexists. eexists. eexists. split; [reflexivity|].
  match goal with
  | |- ?A /\ _ => assert (Hin : A) by (right; right; left; reflexivity)
  end.
  split; [exact Hin|].
  destruct (@NewNode_network_id_conversion Sample.bootnodes
              "ropsten" "sepolia" "rinkeby" "goerli" "Gcofe" "1.0"
              (fun a b => (a ++ "/" ++ b)%string) Sample.host
              "/data" (addr (Sample.config "" (-1))) _ _ _ eq_refl Hin)
    as [_ [_ [H _]]].
  - split; [discriminate | reflexivity].
  - apply H. reflexivity.
Defined.

Lemma NewNode_hardcodes_chain_config_witness :
  exists o ec made g,
    Sample.NewNode "/data" (addr (Sample.config "goerli" 7)) = Done o /\
    In (Gcofe.les_New ec made) (Gcofe.calls o) /\
    Gcofe.eth_Genesis ec = addr g /\
    Gcofe.Config g = addr Gcofe.GoerliChainConfig /\
    Gcofe.NetworkId ec = 7%Z.
Proof.
  eexists. eexists. eexists.
  assert (Hin : In (Gcofe.les_New
                      (Gcofe.ethConf
                         (addr (Gcofe.set_Config
                                  {| Gcofe.Config := nil; Gcofe.block := 0%N |}
                                  Gcofe.GoerliChainConfig))
                         (Gcofe.set_BootstrapNodes
                            (Gcofe.set_MaxPeers (Sample.config "goerli" 7) 25)
                            (addr Sample.bootnodes)))
                      (fst (Les.New Sample.startup)))
                   (Gcofe.calls
                      (Gcofe.register Sample.host
                         (Gcofe.nodeConf "Gcofe" "1.0"
                            (fun a b => (a ++ "/" ++ b)%string) "/data"
                            (Gcofe.set_BootstrapNodes
                               (Gcofe.set_MaxPeers (Sample.config "goerli" 7) 25)
                               (addr Sample.bootnodes)) Sample.bootnodes)
                         [Gcofe.node_New
                            (Gcofe.nodeConf "Gcofe" "1.0"
                               (fun a b => (a ++ "/" ++ b)%string) "/data"
                               (Gcofe.set_BootstrapNodes
                                  (Gcofe.set_MaxPeers (Sample.config "goerli" 7) 25)
                                  (addr Sample.bootnodes)) Sample.bootnodes);
                          Gcofe.Memsize_Add]
                         (addr (Gcofe.set_Config
                                  {| Gcofe.Config := nil; Gcofe.block := 0%N |}
                                  Gcofe.GoerliChainConfig))
                         (Gcofe.set_BootstrapNodes
                            (Gcofe.set_MaxPeers (Sample.config "goerli" 7) 25)
                            (addr Sample.bootnodes)))))
    by (right; right; left; reflexivity).
  destruct (@NewNode_hardcodes_chain_config Sample.bootnodes
              "ropsten" "sepolia" "rinkeby" "goerli" "Gcofe" "1.0"
              (fun a b => (a ++ "/" ++ b)%string) Sample.host
              "/data" (addr (Sample.config "goerli" 7)) _ _ _
              {| Gcofe.Config := nil; Gcofe.block := 0%N |} eq_refl Hin)
    as [g [H1 [_ [H2 _]]]]; [discriminate | reflexivity |].
  exists g. split; [reflexivity|]. split; [exact Hin|].
  split; [exact H1|]. split; [apply H2; reflexivity | reflexivity].
Defined.

Lemma NewNode_without_confero_witness :
  exists o,
    Sample.NewNode "/data" (addr Sample2.quiet_config) = Done o /\
    existsb GcofeRun.is_ethstats_New (Gcofe.calls o) = false /\
    existsb GcofeRun.is_les_New (Gcofe.calls o) = false.
Proof.
  eexists. split; [reflexivity|].
  destruct (@NewNode_without_confero Sample.bootnodes
              "ropsten" "sepolia" "rinkeby" "goerli" "Gcofe" "1.0"
              (fun a b => (a ++ "/" ++ b)%string) Sample.host
              "/data" (addr Sample2.quiet_config) _ eq_refl eq_refl)
    as [H1 [H2 _]].
  split; [exact H2 | exact H1].
Defined.

Lemma NewNode_nil_config_witness :
  exists o,
    Sample.NewNode "/data" nil = Done o /\
    Gcofe.config' o = Gcofe.defaultNodeConfig Sample.bootnodes.
Proof.
  eexists. split; [reflexivity|].
  destruct (@NewNode_nil_config Sample.bootnodes
              "ropsten" "sepolia" "rinkeby" "goerli" "Gcofe" "1.0"
              (fun a b => (a ++ "/" ++ b)%string) Sample.host
              "/data" _ eq_refl) as [H _].
  exact H.
Defined.

Lemma NewNode_config_stable_witness :
  exists o1 o2,
    Sample.NewNode "/data" (addr (Sample.config "sepolia" 1)) = Done o1 /\
    Sample.NewNode "/data" (addr (Gcofe.config' o1)) = Done o2 /\
    Gcofe.config' o2 = Gcofe.config' o1 /\
    Gcofe.ConferoNetworkID (Gcofe.config' o2) = 11155111%Z.
Proof.
  eexists. eexists. split; [reflexivity|]. split; [reflexivity|].
  split; [|reflexivity].
  apply (@NewNode_config_stable Sample.bootnodes
           "ropsten" "sepolia" "rinkeby" "goerli" "Gcofe" "1.0"
           (fun a b => (a ++ "/" ++ b)%string) Sample.host
           "/data" (Sample.config "sepolia" 1) _ _ eq_refl eq_refl).
Defined.
